(** * Product catalog service (main.py): model and properties

    The module main.py serves a product catalog kept in the "product"
    collection of a document store.  This development embeds its four
    catalog operations (list, get, create, seed), the two pydantic models
    and the document-to-output mapping, and proves the properties the
    specification states about them. *)

From Stdlib Require Import ZArith NArith Floats.
From Stdlib Require Import Strings.Ascii Strings.Byte.
From stdpp Require Import base option list strings gmap.

Set Warnings "-inexact-float,-register-all".
Set Default Proof Using "Type".
Local Open Scope string_scope.

(** ** Results and exceptions *)

(** The exceptions the catalog code can meet.  [HTTPException] is the one
    main.py raises itself; the others come from the interpreter
    ([TypeError], [ValueError], [OverflowError]), from bson ([InvalidId]),
    from pydantic ([ValidationError], with the offending fields) and from
    the driver ([PyMongoError]). *)
Inductive exn : Type :=
| TypeError
| ValueError
| OverflowError
| InvalidId
| ValidationError (fields : list string)
| PyMongoError (msg : string)
| HTTPException (status_code : Z) (detail : string).

Inductive result (A : Type) : Type :=
| Ok (a : A)
| Raise (e : exn).
Arguments Ok {A} a.
Arguments Raise {A} e.

#[global] Instance result_ret : MRet result := λ A a, Ok a.
#[global] Instance result_bind : MBind result := λ A B f m,
  match m with
  | Ok a => f a
  | Raise e => Raise e
  end.
#[global] Instance result_fmap : FMap result := λ A B f m,
  match m with
  | Ok a => Ok (f a)
  | Raise e => Raise e
  end.

(** [try: c except Exception: h] *)
Definition try_except {A} (c : result A) (h : exn → result A) : result A :=
  match c with
  | Ok a => Ok a
  | Raise e => h e
  end.

Definition is_ok {A} (r : result A) : bool :=
  match r with
  | Ok _ => true
  | Raise _ => false
  end.

(** [[f(x) for x in xs]]: the first exception ends the comprehension. *)
Fixpoint list_comprehension {A B} (f : A → result B) (xs : list A) : result (list B) :=
  match xs with
  | [] => Ok []
  | x :: xs' => y ← f x; ys ← list_comprehension f xs'; mret (y :: ys)
  end.

(** ** Store identifiers (bson.ObjectId) *)

(** An identifier as [ObjectId()] makes it and as the store holds it:
    twelve bytes, its binary; its text form is their 24 lower-case
    hexadecimal digits.  (An [ObjectId] built from a text can have fewer
    bytes, see [ObjectId_new]; it is given by its binary.) *)
Definition ObjectId : Type := { binary : list byte | length binary = 12%nat }.

#[global] Instance byte_eq_dec : EqDecision byte := Byte.byte_eq_dec.

Definition hex_digit (n : N) : ascii :=
  match n with
  | 0 => "0" | 1 => "1" | 2 => "2" | 3 => "3" | 4 => "4" | 5 => "5"
  | 6 => "6" | 7 => "7" | 8 => "8" | 9 => "9" | 10 => "a" | 11 => "b"
  | 12 => "c" | 13 => "d" | 14 => "e" | _ => "f"
  end%N%char.

Definition hex_value (c : ascii) : option N :=
  let n := N_of_ascii c in
  if ((48 <=? n) && (n <=? 57))%N then Some (n - 48)%N
  else if ((97 <=? n) && (n <=? 102))%N then Some (n - 87)%N
  else if ((65 <=? n) && (n <=? 70))%N then Some (n - 55)%N
  else None.

(** [binascii.hexlify] *)
Fixpoint hexlify (bs : list byte) : string :=
  match bs with
  | [] => ""
  | b :: bs' =>
      String (hex_digit (Byte.to_N b / 16)) (String (hex_digit (Byte.to_N b mod 16)) (hexlify bs'))
  end.

(** ASCII whitespace: space, tab, line feed, vertical tab, form feed,
    carriage return. *)
Definition is_space (c : ascii) : bool :=
  let n := N_of_ascii c in
  (n =? 32)%N || ((9 <=? n) && (n <=? 13))%N.

(** [bytes.fromhex(s)]: pairs of hexadecimal digits, either case, with
    ASCII whitespace skipped in front of a pair and at the end; [None]
    where it raises [ValueError]. *)
Fixpoint fromhex (s : string) : option (list byte) :=
  match s with
  | "" => Some []
  | String c1 s1 =>
      if is_space c1 then fromhex s1
      else
        match s1 with
        | String c2 s2 =>
            h ← hex_value c1;
            l ← hex_value c2;
            b ← Byte.of_N (16 * h + l);
            bs ← fromhex s2;
            Some (b :: bs)
        | "" => None
        end
  end.

(** [str(oid)] *)
Definition ObjectId_str (oid : ObjectId) : string := hexlify (`oid).

(** [ObjectId(s)] for a text [s], given by the binary of the identifier
    built: the text must have 24 characters and [bytes.fromhex] must
    read it, [InvalidId] otherwise.  As [bytes.fromhex] skips whitespace,
    the binary has twelve bytes for 24 hexadecimal digits and fewer for a
    text with whitespace in it. *)
Definition ObjectId_new (s : string) : result (list byte) :=
  if bool_decide (String.length s = 24%nat) then
    match fromhex s with
    | Some bs => Ok bs
    | None => Raise InvalidId
    end
  else Raise InvalidId.

(** [ObjectId.is_valid(s)] *)
Definition ObjectId_is_valid (s : string) : bool := is_ok (ObjectId_new s).

(** ** Python values *)

(** The values a stored document or a request can hold. *)
Inductive pyval : Type :=
| PNone
| PBool (b : bool)
| PInt (z : Z)
| PFloat (f : float)
| PStr (s : string)
| PObjectId (oid : ObjectId)
| PList (l : list pyval)
| PDict (d : gmap string pyval).

(** A Python [dict] with text keys. *)
Abbreviation dict := (gmap string pyval).

(** [d.get(k)] and [d.get(k, v)] *)
Definition dict_get (d : dict) (k : string) : pyval := default PNone (d !! k).
Definition dict_get_default (d : dict) (k : string) (v : pyval) : pyval := default v (d !! k).

(** [v is not None] *)
Definition is_not_None (v : pyval) : bool :=
  match v with
  | PNone => false
  | _ => true
  end.

(** The interpreter's reading of a text as a number, [float(s)] for a
    [str]: the number, or [None] where the interpreter raises
    [ValueError].  The catalog code relies on nothing else about it. *)
Class PyRuntime : Type := { float_of_str : string → option float }.

(** [float(n)] for an [int]: the nearest double, ties to even, and
    [OverflowError] beyond the range of doubles. *)
Definition float_of_int (z : Z) : result float :=
  match binary_normalize prec emax z 0 false with
  | S754_infinity _ => Raise OverflowError
  | sf => Ok (SF2Prim sf)
  end.

(** [float(v)] *)
Definition py_float `{PyRuntime} (v : pyval) : result float :=
  match v with
  | PBool b => Ok (if b then 1 else 0)%float
  | PInt z => float_of_int z
  | PFloat f => Ok f
  | PStr s =>
      match float_of_str s with
      | Some f => Ok f
      | None => Raise ValueError
      end
  | PNone | PObjectId _ | PList _ | PDict _ => Raise TypeError
  end.

(** [bool(v)] *)
Definition py_bool (v : pyval) : bool :=
  match v with
  | PNone => false
  | PBool b => b
  | PInt z => negb (z =? 0)%Z
  | PFloat f => negb (f =? 0)%float
  | PStr s => negb (String.eqb s "")
  | PObjectId _ => true
  | PList l => negb (bool_decide (length l = 0%nat))
  | PDict d => negb (bool_decide (size d = 0%nat))
  end.

(** ** The pydantic models *)

(** [Field(..., ge=0)] on [price] *)
Definition price_ok (p : float) : bool := (0 <=? p)%float.

(** [Field(4.5, ge=0, le=5)] on the optional [rating] *)
Definition rating_ok (r : option float) : bool :=
  match r with
  | None => true
  | Some x => (0 <=? x)%float && (x <=? 5)%float
  end.

Definition field_error (name : string) (ok : bool) : list string :=
  if ok then [] else [name].

(** A [str] field and an [Optional[str]] field given a Python value. *)
Definition as_str (v : pyval) : option string :=
  match v with
  | PStr s => Some s
  | _ => None
  end.

Definition as_optional_str (v : pyval) : option (option string) :=
  match v with
  | PNone => Some None
  | PStr s => Some (Some s)
  | _ => None
  end.

Module ProductCreate.

Record t : Type := {
  title : string;
  description : option string;
  price : float;
  category : string;
  in_stock : bool;
  image_url : option string;
  rating : option float;
}.

(** A request body for the model: every field is absent ([None]) or
    given with a value of the field's type; an optional field can be
    given as null.  (Coercion of JSON values to the field types is
    pydantic's and happens before the constraints below.) *)
Record body : Type := {
  body_title : option string;
  body_description : option (option string);
  body_price : option float;
  body_category : option string;
  body_in_stock : option bool;
  body_image_url : option (option string);
  body_rating : option (option float);
}.

(** The fields of a body that break the model, in field order:
    [title], [price] and [category] are required, [price] has [ge=0],
    [rating] has [ge=0, le=5]. *)
Definition errors (b : body) : list string :=
  field_error "title" (bool_decide (is_Some (body_title b)))
  ++ field_error "price" (from_option price_ok false (body_price b))
  ++ field_error "category" (bool_decide (is_Some (body_category b)))
  ++ field_error "rating" (from_option rating_ok true (body_rating b)).

(** Building a [ProductCreate] from a body: defaults for the absent fields
    ([description=None], [in_stock=True], [image_url=None],
    [rating=4.5]), [ValidationError] when a constraint fails. *)
Definition validate (b : body) : result t :=
  match body_title b, body_price b, body_category b with
  | Some ti, Some p, Some c =>
      let r := default (Some 4.5%float) (body_rating b) in
      if price_ok p && rating_ok r then
        Ok {| title := ti;
              description := default None (body_description b);
              price := p;
              category := c;
              in_stock := default true (body_in_stock b);
              image_url := default None (body_image_url b);
              rating := r |}
      else Raise (ValidationError (errors b))
  | _, _, _ => Raise (ValidationError (errors b))
  end.

Definition optional_str (o : option string) : pyval :=
  match o with
  | Some s => PStr s
  | None => PNone
  end.

Definition optional_float (o : option float) : pyval :=
  match o with
  | Some f => PFloat f
  | None => PNone
  end.

(** [payload.model_dump()] *)
Definition model_dump (p : t) : dict :=
  <["title" := PStr (title p)]>
  (<["description" := optional_str (description p)]>
  (<["price" := PFloat (price p)]>
  (<["category" := PStr (category p)]>
  (<["in_stock" := PBool (in_stock p)]>
  (<["image_url" := optional_str (image_url p)]>
  (<["rating" := optional_float (rating p)]> ∅)))))).

End ProductCreate.

Module ProductOut.

(** [class ProductOut(ProductCreate)]: the fields and constraints of
    [ProductCreate], and [id]. *)
Record t : Type := {
  id : string;
  title : string;
  description : option string;
  price : float;
  category : string;
  in_stock : bool;
  image_url : option string;
  rating : option float;
}.

Definition errors (title description : pyval) (price : float) (category image_url : pyval)
    (rating : option float) : list string :=
  field_error "title" (bool_decide (is_Some (as_str title)))
  ++ field_error "description" (bool_decide (is_Some (as_optional_str description)))
  ++ field_error "price" (price_ok price)
  ++ field_error "category" (bool_decide (is_Some (as_str category)))
  ++ field_error "image_url" (bool_decide (is_Some (as_optional_str image_url)))
  ++ field_error "rating" (rating_ok rating).

(** [ProductOut(id=.., title=.., ...)] with the arguments
    [product_doc_to_out] passes: a text, values read from a dict, a
    float, a bool and an optional float. *)
Definition new (id : string) (title description : pyval) (price : float) (category : pyval)
    (in_stock : bool) (image_url : pyval) (rating : option float) : result t :=
  let errs := errors title description price category image_url rating in
  match as_str title, as_optional_str description, as_str category, as_optional_str image_url with
  | Some ti, Some d, Some c, Some u =>
      if price_ok price && rating_ok rating then
        Ok (Build_t id ti d price c in_stock u rating)
      else Raise (ValidationError errs)
  | _, _, _, _ => Raise (ValidationError errs)
  end.

End ProductOut.

(** ** The document store *)

(** A stored document: the identifier the store assigned under [_id],
    and its other keys. *)
Record document : Type := {
  _id : ObjectId;
  fields : dict;
}.

#[global] Instance ObjectId_eq_dec : EqDecision ObjectId.
Proof. unfold ObjectId. apply _. Defined.

(** The database behind the handle [db]: the documents of the "product"
    collection in insertion order, whether the store can be reached
    ([Some msg]: it cannot, and each driver call raises [PyMongoError msg]
    before it reads or writes anything), and the identifiers [ObjectId()]
    is going to produce for inserted documents.  A failure in the middle
    of a write is not modelled. *)
Record Database : Type := {
  product : list document;
  driver_error : option string;
  next_ids : nat → ObjectId;
}.

Definition driver_call {A} (st : Database) (a : A) : result A :=
  match driver_error st with
  | Some msg => Raise (PyMongoError msg)
  | None => Ok a
  end.

(** [db["product"].find_one({"_id": oid})], for an identifier given by
    its binary. *)
Definition find_one (st : Database) (oid : list byte) : result (option document) :=
  driver_call st (head (filter (λ d, proj1_sig (_id d) = oid) (product st))).

(** [db["product"].count_documents({})] *)
Definition count_documents (st : Database) : result Z :=
  driver_call st (Z.of_nat (length (product st))).

(** [db["product"].insert_many(docs).inserted_ids], for dicts without an
    [_id] key: each gets a new identifier and is appended.  On a store
    that cannot be reached nothing is written. *)
Definition insert_many (st : Database) (docs : list dict) : result (list ObjectId) * Database :=
  match driver_error st with
  | Some msg => (Raise (PyMongoError msg), st)
  | None =>
      let ids := map (next_ids st) (seq 0 (length docs)) in
      (Ok ids,
       {| product := product st ++ zip_with Build_document ids docs;
          driver_error := driver_error st;
          next_ids := λ n, next_ids st (length docs + n)%nat |})
  end.

(** [db["product"].insert_one(doc).inserted_id] *)
Definition insert_one (st : Database) (doc : dict) : result ObjectId * Database :=
  match driver_error st with
  | Some msg => (Raise (PyMongoError msg), st)
  | None =>
      let oid := next_ids st 0 in
      (Ok oid,
       {| product := product st ++ [Build_document oid doc];
          driver_error := driver_error st;
          next_ids := λ n, next_ids st (S n) |})
  end.

(** ** database.py *)

(** A query filter as [list_products] builds it: keys with the text each
    must equal. *)
Definition doc_matches (filters : gmap string string) (d : document) : Prop :=
  map_Forall (λ k s, fields d !! k ≫= as_str = Some s) filters.

#[global] Instance doc_matches_dec filters d : Decision (doc_matches filters d).
Proof. unfold doc_matches. apply _. Defined.

(** Modelled from the spec: [get_documents] of database.py, which is not
    among the sources.  It is the repository's [find] (section 4.3): an
    equality filter on the keys supplied, the result capped at [limit]
    when one is supplied (at nothing, for a limit below 1), no cap
    otherwise, in insertion order. *)
Definition get_documents (st : Database) (filters : gmap string string) (limit : option Z)
    : result (list document) :=
  let found := filter (doc_matches filters) (product st) in
  driver_call st
    match limit with
    | Some n => take (Z.to_nat n) found
    | None => found
    end.

(** Modelled from the spec: [create_document] of database.py, which is
    not among the sources.  It is the repository's [insertOne] (sections
    4.2 to 4.4): the data is stored field for field, the store assigns
    the identifier, and its text form is returned. *)
Definition create_document (st : Database) (data : dict) : result string * Database :=
  let '(r, st') := insert_one st data in (ObjectId_str <$> r, st').

(** ** main.py *)

Section main.
Context `{PyRuntime}.

(** The arguments are evaluated in the order written, so a failing
    [float(..)] is raised before the model is built; [doc.get("_id")] is
    the stored identifier. *)
Definition product_doc_to_out (doc : document) : result ProductOut.t :=
  let id := ObjectId_str (_id doc) in
  let title := dict_get (fields doc) "title" in
  let description := dict_get (fields doc) "description" in
  price ← py_float (dict_get_default (fields doc) "price" (PInt 0));
  let category := dict_get (fields doc) "category" in
  let in_stock := py_bool (dict_get_default (fields doc) "in_stock" (PBool true)) in
  let image_url := dict_get (fields doc) "image_url" in
  rating ←
    (if is_not_None (dict_get (fields doc) "rating")
     then Some <$> py_float (dict_get_default (fields doc) "rating" (PInt 0))
     else Ok None);
  ProductOut.new id title description price category in_stock image_url rating.

Definition list_products (db : option Database) (limit : option Z) (category : option string)
    : result (list ProductOut.t) :=
  match db with
  | None => Raise (HTTPException 500 "Database not configured")
  | Some st =>
      let filters : gmap string string :=
        match category with
        | Some c => if py_bool (PStr c) then <["category" := c]> ∅ else ∅
        | None => ∅
        end in
      docs ← get_documents st filters limit;
      list_comprehension product_doc_to_out docs
  end.

(** A document found always has its [_id], so [not doc] holds only for
    [None]. *)
Definition get_product (db : option Database) (product_id : string) : result ProductOut.t :=
  match db with
  | None => Raise (HTTPException 500 "Database not configured")
  | Some st =>
      doc ← try_except
               (oid ← ObjectId_new product_id; find_one st oid)
               (λ _, Raise (HTTPException 400 "Invalid product id"));
      match doc with
      | None => Raise (HTTPException 404 "Product not found")
      | Some d => product_doc_to_out d
      end
  end.

End main.

Definition create_product (db : option Database) (payload : ProductCreate.t)
    : result string * option Database :=
  match db with
  | None => (Raise (HTTPException 500 "Database not configured"), db)
  | Some st =>
      let product := ProductCreate.model_dump payload in
      let '(inserted_id, st') := create_document st product in
      (inserted_id, Some st')
  end.

(** The route [POST /api/products]: the body is validated into a
    [ProductCreate] before [create_product] runs. *)
Definition post_products (db : option Database) (b : ProductCreate.body)
    : result string * option Database :=
  match ProductCreate.validate b with
  | Ok payload => create_product db payload
  | Raise e => (Raise e, db)
  end.

Definition sample_product (title description : string) (price : float) (category image_url : string)
    (rating : float) : dict :=
  <["title" := PStr title]>
  (<["description" := PStr description]>
  (<["price" := PFloat price]>
  (<["category" := PStr category]>
  (<["in_stock" := PBool true]>
  (<["image_url" := PStr image_url]>
  (<["rating" := PFloat rating]> ∅)))))).

Definition sample_products : list dict :=
  [ sample_product "Pastel Visa Card"
      "Minimalist fintech card with soft-touch finish" 29.99 "Cards"
      "https://images.unsplash.com/photo-1543002588-bfa74002ed7e?q=80&w=1200&auto=format&fit=crop"
      4.8;
    sample_product "Digital Wallet Subscription"
      "Secure multi-currency wallet with instant transfers" 9.99 "Services"
      "https://images.unsplash.com/photo-1612178991541-baf93d77a9a0?q=80&w=1200&auto=format&fit=crop"
      4.7;
    sample_product "Smart NFC Tag"
      "Tap-to-pay accessory for seamless checkout" 14.5 "Accessories"
      "https://images.unsplash.com/photo-1518770660439-4636190af475?q=80&w=1200&auto=format&fit=crop"
      4.4;
    sample_product "Premium Card Holder"
      "Matte silicone holder in pastel tones" 19.0 "Accessories"
      "https://images.unsplash.com/photo-1537039557101-0e0f4e3d0f51?q=80&w=1200&auto=format&fit=crop"
      4.6 ].

Definition seed_products (db : option Database) : result dict * option Database :=
  match db with
  | None => (Raise (HTTPException 500 "Database not configured"), db)
  | Some st =>
      match count_documents st with
      | Raise e => (Raise e, db)
      | Ok count =>
          if (count >? 0)%Z then
            (Ok (<["inserted" := PInt 0]> (<["message" := PStr "Products already exist"]> ∅)), db)
          else
            let '(res, st') := insert_many st sample_products in
            ((λ inserted_ids, <["inserted" := PInt (Z.of_nat (length inserted_ids))]> ∅) <$> res,
             Some st')
      end
  end.

(** *** The identifier helper of main.py *)

(** [ObjectId.is_valid(v)] for any value: false for a falsy value, and
    otherwise whether [ObjectId(v)] succeeds, which it does for an
    identifier and for a well-formed text ([InvalidId] and [TypeError] are
    caught). *)
Definition ObjectId_is_valid_value (v : pyval) : bool :=
  py_bool v
  && match v with
     | PObjectId _ => true
     | PStr s => ObjectId_is_valid s
     | _ => false
     end.

Module PyObjectId.

(** [PyObjectId.validate(v)], the identifier returned given by its
    binary: an identifier is returned as it is; a value that is not valid
    raises [ValueError]; otherwise [ObjectId(v)] is returned, a call
    reached only with a text that [ObjectId] reads. *)
Definition validate (v : pyval) : result (list byte) :=
  match v with
  | PObjectId oid => Ok (proj1_sig oid)
  | _ =>
      if negb (ObjectId_is_valid_value v) then Raise ValueError
      else
        match v with
        | PStr s => ObjectId_new s
        | _ => Raise TypeError
        end
  end.

End PyObjectId.

(** ** Notions used in the statements *)



(** The category a document stores, when it is a text. *)
Definition stored_category (d : document) : option string :=
  fields d !! "category" ≫= as_str.

(** The documents a [category] argument of [list_products] selects: all
    of them when it is absent or empty, those storing it otherwise. *)
Definition selected (category : option string) (d : document) : Prop :=
  match category with
  | Some c => c = "" ∨ stored_category d = Some c
  | None => True
  end.

#[global] Instance selected_dec category d : Decision (selected category d).
Proof. destruct category; apply _. Defined.

(** ** Example data *)

(** A runtime for the closed examples below.  None of the examples
    converts a text to a number, so each of them holds for every runtime
    alike; this one reads no text as a number. *)
Definition example_runtime : PyRuntime := {| float_of_str := λ _, None |}.

Definition example_id (n : N) : ObjectId :=
  (replicate 11 x00 ++ [default x00 (Byte.of_N (n mod 256))])%list ↾ eq_refl.

(** The store after seeding, and the same store with a failing driver. *)
Definition seeded_store : Database :=
  {| product := zip_with Build_document (example_id <$> [0; 1; 2; 3]%N) sample_products;
     driver_error := None;
     next_ids := λ n, example_id (N.of_nat n + 4) |}.

Definition empty_store : Database :=
  {| product := []; driver_error := None; next_ids := λ n, example_id (N.of_nat n) |}.

Definition failing_store : Database :=
  {| product := product seeded_store;
     driver_error := Some "connection refused";
     next_ids := next_ids seeded_store |}.

Definition example_fields : dict :=
  sample_product "Smart NFC Tag" "Tap-to-pay accessory for seamless checkout" 14.5
    "Accessories" "https://example.org/nfc-tag.png" 4.5.

Definition doc_complete : document := Build_document (example_id 7) example_fields.
Definition doc_without_title : document :=
  Build_document (example_id 7) (delete "title" example_fields).
Definition doc_rating_out_of_range : document :=
  Build_document (example_id 7) (<["rating" := PFloat 7.5]> example_fields).

(** A create body that gives the required fields only. *)
Definition example_body : ProductCreate.body :=
  {| ProductCreate.body_title := Some "Gift Card";
     ProductCreate.body_description := None;
     ProductCreate.body_price := Some 25%float;
     ProductCreate.body_category := Some "Cards";
     ProductCreate.body_in_stock := None;
     ProductCreate.body_image_url := None;
     ProductCreate.body_rating := None |}.

(** The seeded store with one more document, which has no title. *)
Definition malformed_store : Database :=
  {| product := product seeded_store ++ [doc_without_title];
     driver_error := None;
     next_ids := next_ids seeded_store |}.

(** The payload [example_body] validates to. *)
Definition example_payload : ProductCreate.t :=
  {| ProductCreate.title := "Gift Card";
     ProductCreate.description := None;
     ProductCreate.price := 25%float;
     ProductCreate.category := "Cards";
     ProductCreate.in_stock := true;
     ProductCreate.image_url := None;
     ProductCreate.rating := Some 4.5%float |}.

(** ** Properties of the model *)

(** *** The identifier codec *)

Lemma hex_digit_value (b : byte) :
  hex_value (hex_digit (Byte.to_N b / 16)) = Some (Byte.to_N b / 16)%N
  ∧ hex_value (hex_digit (Byte.to_N b mod 16)) = Some (Byte.to_N b mod 16)%N
  ∧ Byte.of_N (16 * (Byte.to_N b / 16) + Byte.to_N b mod 16) = Some b
  ∧ is_space (hex_digit (Byte.to_N b / 16)) = false.
Proof. destruct b; vm_compute; done. Qed.

Lemma fromhex_hexlify (bs : list byte) : fromhex (hexlify bs) = Some bs.
Proof.
  induction bs as [|b bs IH]; [done|].
  destruct (hex_digit_value b) as (Hh & Hl & Hb & Hs).
  cbn [hexlify fromhex]. rewrite Hs, Hh, Hl. cbn [mbind option_bind].
  rewrite Hb. cbn [mbind option_bind]. by rewrite IH.
Qed.

Lemma length_hexlify (bs : list byte) : String.length (hexlify bs) = (2 * length bs)%nat.
Proof. induction bs as [|b bs IH]; [done|]. cbn [hexlify String.length length]. lia. Qed.

(** Decoding the text form of an identifier gives the identifier back. *)
Lemma ObjectId_new_str (oid : ObjectId) : ObjectId_new (ObjectId_str oid) = Ok (proj1_sig oid).
Proof.
  destruct oid as [bs Hbs]. unfold ObjectId_new, ObjectId_str. cbn [proj1_sig].
  rewrite bool_decide_eq_true_2 by (rewrite length_hexlify; lia).
  by rewrite fromhex_hexlify.
Qed.

Lemma ObjectId_binary_inj (oid1 oid2 : ObjectId) : proj1_sig oid1 = proj1_sig oid2 ↔ oid1 = oid2.
Proof. symmetry. apply (sig_eq_pi (λ l : list byte, length l = 12%nat)). Qed.

Lemma ObjectId_is_valid_str (oid : ObjectId) : ObjectId_is_valid (ObjectId_str oid) = true.
Proof. unfold ObjectId_is_valid. by rewrite ObjectId_new_str. Qed.






(** *** Results *)


Lemma bind_Ok_inv {A B} (f : A → result B) (m : result A) (b : B) :
  m ≫= f = Ok b → ∃ a, m = Ok a ∧ f a = Ok b.
Proof. destruct m as [a|e]; [|done]. eauto. Qed.

Lemma list_comprehension_Forall2 {A B} (f : A → result B) (xs : list A) (ys : list B) :
  list_comprehension f xs = Ok ys ↔ Forall2 (λ x y, f x = Ok y) xs ys.
Proof.
  revert ys. induction xs as [|x xs IH]; intros ys; cbn [list_comprehension].
  - split; [intros [= <-]; constructor|by inversion 1].
  - split.
    + intros (y & Hy & Hys)%bind_Ok_inv.
      apply bind_Ok_inv in Hys as (ys' & Hys' & [= <-]).
      constructor; [done|by apply IH].
    + inversion 1 as [|? y ? ys' Hy Hys']; subst.
      apply IH in Hys'. rewrite Hy, Hys'. done.
Qed.

Lemma list_comprehension_length {A B} (f : A → result B) (xs : list A) (ys : list B) :
  list_comprehension f xs = Ok ys → length ys = length xs.
Proof. intros Hys%list_comprehension_Forall2. symmetry. by eapply Forall2_length. Qed.

Lemma list_comprehension_is_ok {A B} (f : A → result B) (xs : list A) :
  Forall (λ x, is_ok (f x) = true) xs → is_ok (list_comprehension f xs) = true.
Proof.
  induction 1 as [|x xs Hx _ IH]; [done|]. cbn [list_comprehension].
  destruct (f x); [|done]. cbn [mbind result_bind].
  by destruct (list_comprehension f xs).
Qed.

(** *** Filtering *)

Lemma filter_all {A} (P : A → Prop) `{!∀ x, Decision (P x)} (l : list A) :
  Forall P l → filter P l = l.
Proof.
  induction 1 as [|x l Hx _ IH]; [done|]. rewrite filter_cons_True by done. by rewrite IH.
Qed.

Lemma filter_none {A} (P : A → Prop) `{!∀ x, Decision (P x)} (l : list A) :
  Forall (λ x, ¬ P x) l → filter P l = [].
Proof.
  induction 1 as [|x l Hx _ IH]; [done|]. by rewrite filter_cons_False.
Qed.

(** *** The mapping from stored documents to API output *)

Section mapping.
Context `{PyRuntime}.

Lemma float_of_int_0 : float_of_int 0 = Ok 0%float.
Proof. reflexivity. Qed.

Lemma product_doc_to_out_ok_inv (doc : document) (out : ProductOut.t) :
  product_doc_to_out doc = Ok out →
  ∃ ti d p c u r,
    as_str (dict_get (fields doc) "title") = Some ti
    ∧ as_optional_str (dict_get (fields doc) "description") = Some d
    ∧ py_float (dict_get_default (fields doc) "price" (PInt 0)) = Ok p
    ∧ price_ok p = true
    ∧ as_str (dict_get (fields doc) "category") = Some c
    ∧ as_optional_str (dict_get (fields doc) "image_url") = Some u
    ∧ (if is_not_None (dict_get (fields doc) "rating")
       then Some <$> py_float (dict_get_default (fields doc) "rating" (PInt 0))
       else Ok None) = Ok r
    ∧ rating_ok r = true
    ∧ out = ProductOut.Build_t (ObjectId_str (_id doc)) ti d p c
              (py_bool (dict_get_default (fields doc) "in_stock" (PBool true))) u r.
Proof.
  unfold product_doc_to_out, ProductOut.new.
  destruct (py_float (dict_get_default (fields doc) "price" (PInt 0))) as [p|e]; [|done].
  cbn [mbind result_bind].
  destruct (if is_not_None _ then _ else _) as [r|e]; [|done].
  cbn [mbind result_bind].
  destruct (as_str (dict_get (fields doc) "title")) as [ti|]; [|done].
  destruct (as_optional_str (dict_get (fields doc) "description")) as [d|]; [|done].
  destruct (as_str (dict_get (fields doc) "category")) as [c|]; [|done].
  destruct (as_optional_str (dict_get (fields doc) "image_url")) as [u|]; [|done].
  destruct (price_ok p) eqn:Hp; [|done].
  destruct (rating_ok r) eqn:Hr; [|done].
  cbn [andb]. intros [= <-]. by exists ti, d, p, c, u, r.
Qed.

Lemma rating_argument (d : dict) :
  (if is_not_None (dict_get d "rating")
   then Some <$> py_float (dict_get_default d "rating" (PInt 0))
   else Ok None)
  = match dict_get d "rating" with
    | PNone => Ok None
    | v => Some <$> py_float v
    end.
Proof.
  unfold dict_get, dict_get_default.
  destruct (d !! "rating") as [v|]; [|done]. by destruct v.
Qed.



(** C10.  A stored document whose [rating] is present but null maps
    exactly as the same document without a [rating] key: to the same
    record or the same exception.  Where its other fields are well
    formed (texts for [title] and [category], texts or nothing for
    [description] and [image_url], a price that converts to a float of
    at least 0) it does map to a record, the one with these fields and
    no rating; and whenever the mapping succeeds the output has no
    rating. *)
Theorem product_doc_to_out_null_rating (oid : ObjectId) (d : dict) :
  product_doc_to_out (Build_document oid (<["rating" := PNone]> d))
  = product_doc_to_out (Build_document oid (delete "rating" d))
  ∧ (∀ out, product_doc_to_out (Build_document oid (<["rating" := PNone]> d)) = Ok out →
       ProductOut.rating out = None)
  ∧ (∀ ti de p c u,
       as_str (dict_get d "title") = Some ti →
       as_optional_str (dict_get d "description") = Some de →
       py_float (dict_get_default d "price" (PInt 0)) = Ok p →
       price_ok p = true →
       as_str (dict_get d "category") = Some c →
       as_optional_str (dict_get d "image_url") = Some u →
       product_doc_to_out (Build_document oid (<["rating" := PNone]> d))
       = Ok (ProductOut.Build_t (ObjectId_str oid) ti de p c
               (py_bool (dict_get_default d "in_stock" (PBool true))) u None)).
Proof.
  assert (Hget : ∀ k, k ≠ "rating" →
            (<["rating" := PNone]> d : dict) !! k = (delete "rating" d : dict) !! k).
  { intros k Hk. by rewrite lookup_insert_ne, lookup_delete_ne. }
  split_and!.
  - unfold product_doc_to_out, dict_get, dict_get_default. cbn [fields _id].
    rewrite (Hget "title"), (Hget "description"), (Hget "price"), (Hget "category"),
      (Hget "in_stock"), (Hget "image_url") by done.
    by rewrite lookup_insert_eq, lookup_delete_eq.
  - intros out Hout.
    apply product_doc_to_out_ok_inv in Hout
      as (ti & de & p & c & u & r & _ & _ & _ & _ & _ & _ & Hr & _ & ->).
    cbn [fields] in Hr. unfold dict_get in Hr. rewrite lookup_insert_eq in Hr.
    cbn in Hr. by injection Hr as <-.
  - intros ti de p c u Hti Hde Hp Hpok Hc Hu.
    unfold product_doc_to_out, ProductOut.new, dict_get, dict_get_default in *.
    cbn [fields _id].
    rewrite (lookup_insert_ne _ "rating" "title"), (lookup_insert_ne _ "rating" "description"),
      (lookup_insert_ne _ "rating" "price"), (lookup_insert_ne _ "rating" "category"),
      (lookup_insert_ne _ "rating" "in_stock"), (lookup_insert_ne _ "rating" "image_url")
      by done.
    rewrite lookup_insert_eq, Hp. cbn [default is_not_None mbind result_bind].
    by rewrite Hti, Hde, Hc, Hu, Hpok.
Qed.

End mapping.

(** *** Listing *)

Lemma doc_matches_empty (d : document) : doc_matches ∅ d.
Proof. apply map_Forall_empty. Qed.

Lemma doc_matches_category (c : string) (d : document) :
  doc_matches (<["category" := c]> ∅) d ↔ stored_category d = Some c.
Proof. unfold doc_matches, stored_category. by rewrite insert_empty, map_Forall_singleton. Qed.

Lemma py_bool_text (c : string) : py_bool (PStr c) = bool_decide (c ≠ "").
Proof.
  cbn [py_bool]. destruct (String.eqb_spec c "") as [->|Hc]; [done|].
  by rewrite bool_decide_eq_true_2.
Qed.

Section listing.
Context `{PyRuntime}.

(** What [list_products] computes on a store that responds. *)
Lemma list_products_selected (st : Database) (limit : option Z) (category : option string) :
  driver_error st = None →
  list_products (Some st) limit category
  = list_comprehension product_doc_to_out
      (let found := filter (selected category) (product st) in
       match limit with
       | Some n => take (Z.to_nat n) found
       | None => found
       end).
Proof.
  intros Hst. unfold list_products, get_documents, driver_call. rewrite Hst.
  cbn [mbind result_bind]. f_equal.
  assert (Hfilter : ∀ filters,
            (∀ d, doc_matches filters d ↔ selected category d) →
            filter (doc_matches filters) (product st) = filter (selected category) (product st)).
  { intros filters Hiff. by apply list_filter_iff. }
  rewrite (Hfilter _); [done|]. intros d.
  destruct category as [c|]; cbn [selected]; [|by split; [|intros _; apply doc_matches_empty]].
  rewrite py_bool_text. destruct (decide (c = "")) as [->|Hc].
  - split; [by left|intros _; apply doc_matches_empty].
  - rewrite bool_decide_eq_true_2, doc_matches_category by done.
    split; [by right|by intros [?|?]].
Qed.

Lemma product_doc_to_out_category (d : document) (out : ProductOut.t) :
  product_doc_to_out d = Ok out → stored_category d = Some (ProductOut.category out).
Proof.
  intros (ti & de & p & c & u & r & _ & _ & _ & _ & Hc & _ & _ & _ & ->)%product_doc_to_out_ok_inv.
  unfold stored_category, dict_get in *. by destruct (fields d !! "category").
Qed.

(** C2, as amended.  On a configured store that responds, for every
    category C other than the empty string, [list(category=C)] maps the
    stored documents whose category is C, in store order: it gives the
    empty sequence when none matches, and the records it returns are
    exactly the outputs of those documents, each with category C.  For
    the empty string no filter is applied: all documents are mapped. *)
Theorem list_products_by_category (st : Database) (C : string) :
  driver_error st = None →
  C ≠ "" →
  let matching := filter (λ d, stored_category d = Some C) (product st) in
  list_products (Some st) None (Some C) = list_comprehension product_doc_to_out matching
  ∧ (matching = [] → list_products (Some st) None (Some C) = Ok [])
  ∧ (∀ outs, list_products (Some st) None (Some C) = Ok outs →
       Forall2 (λ d out, product_doc_to_out d = Ok out) matching outs
       ∧ Forall (λ out, ProductOut.category out = C) outs)
  ∧ list_products (Some st) None (Some "") = list_comprehension product_doc_to_out (product st).
Proof.
  intros Hst HC matching.
  assert (Hlist : list_products (Some st) None (Some C)
                  = list_comprehension product_doc_to_out matching).
  { rewrite list_products_selected by done. cbn zeta. f_equal.
    apply list_filter_iff. intros d. cbn [selected]. split; [by intros [?|?]|by right]. }
  split_and!.
  - done.
  - intros Hnone. by rewrite Hlist, Hnone.
  - intros outs Houts. rewrite Hlist in Houts.
    apply list_comprehension_Forall2 in Houts. split; [done|].
    assert (Hmatching : Forall (λ d, stored_category d = Some C) matching).
    { apply Forall_forall. intros d Hd. by apply list_elem_of_filter in Hd as [? _]. }
    clear Hlist. induction Houts as [|d out ds outs' Hout _ IH]; [done|].
    apply Forall_cons in Hmatching as [Hd Hds]. constructor; [|by apply IH].
    apply product_doc_to_out_category in Hout. congruence.
  - rewrite list_products_selected by done. cbn zeta. f_equal.
    apply filter_all, Forall_forall. intros d _. by left.
Qed.

(** C8.  For every non-negative N, whatever [list(limit=N)] returns
    has at most N records.  On a configured store that responds, it
    maps the first N selected documents, and with the limit omitted it
    maps all selected documents: when each of them maps, as many
    records are returned as documents are selected. *)
Theorem list_products_limit (db : option Database) (N : Z) (category : option string) :
  (0 ≤ N)%Z →
  (∀ outs, list_products db (Some N) category = Ok outs → (Z.of_nat (length outs) ≤ N)%Z)
  ∧ ∀ st, db = Some st → driver_error st = None →
      let matching := filter (selected category) (product st) in
      list_products db (Some N) category
      = list_comprehension product_doc_to_out (take (Z.to_nat N) matching)
      ∧ list_products db None category = list_comprehension product_doc_to_out matching
      ∧ (Forall (λ d, is_ok (product_doc_to_out d) = true) matching →
           ∃ outs, list_products db None category = Ok outs ∧ length outs = length matching).
Proof.
  intros HN. split.
  - intros outs Houts. destruct db as [st|]; [|done].
    destruct (driver_error st) as [msg|] eqn:Hst.
    { unfold list_products, get_documents, driver_call in Houts. by rewrite Hst in Houts. }
    rewrite list_products_selected in Houts by done.
    apply list_comprehension_length in Houts. rewrite Houts, length_take. lia.
  - intros st -> Hst matching. split_and!.
    + by rewrite list_products_selected.
    + by rewrite list_products_selected.
    + intros Hall. rewrite list_products_selected by done. cbn zeta. fold matching.
      apply list_comprehension_is_ok in Hall.
      destruct (list_comprehension product_doc_to_out matching) as [outs|] eqn:Houts; [|done].
      exists outs. split; [done|]. by eapply list_comprehension_length.
Qed.

End listing.

(** *** Fetching one product *)

Section fetching.
Context `{PyRuntime}.

(** What [get_product] computes once the identifier is read and the
    store responds. *)
Lemma get_product_lookup (st : Database) (product_id : string) (oid : list byte) :
  driver_error st = None →
  ObjectId_new product_id = Ok oid →
  get_product (Some st) product_id
  = match head (filter (λ d, proj1_sig (_id d) = oid) (product st)) with
    | Some d => product_doc_to_out d
    | None => Raise (HTTPException 404 "Product not found")
    end.
Proof.
  intros Hst Hoid. unfold get_product, find_one, driver_call. rewrite Hoid, Hst.
  cbn [mbind result_bind try_except]. by destruct (head _).
Qed.


(** C9.  When [ObjectId] reads the identifier and the store lookup
    raises an exception, whichever it is, [get_product] fails with status
    400, "Invalid product id". *)
Theorem get_product_lookup_failure (st : Database) (product_id : string) (oid : list byte)
    (e : exn) :
  ObjectId_new product_id = Ok oid →
  find_one st oid = Raise e →
  get_product (Some st) product_id = Raise (HTTPException 400 "Invalid product id").
Proof.
  intros Hoid Hfind. unfold get_product. rewrite Hoid. cbn [mbind result_bind].
  by rewrite Hfind.
Qed.

Lemma Forall_other_binary (oid : ObjectId) (l : list document) :
  Forall (λ d, _id d ≠ oid) l → Forall (λ d, ¬ proj1_sig (_id d) = proj1_sig oid) l.
Proof.
  intros Hl. eapply Forall_impl; [done|]. intros d Hd Heq. by apply Hd, ObjectId_binary_inj.
Qed.

(** A well-formed identifier held by no document is not found. *)
Lemma get_product_not_found (st : Database) (oid : ObjectId) :
  driver_error st = None →
  Forall (λ d, _id d ≠ oid) (product st) →
  get_product (Some st) (ObjectId_str oid) = Raise (HTTPException 404 "Product not found").
Proof.
  intros Hst Hfresh. rewrite (get_product_lookup _ _ (proj1_sig oid));
    [|done|apply ObjectId_new_str].
  by rewrite filter_none by by apply Forall_other_binary.
Qed.

(** The document held under an identifier is found and mapped. *)
Lemma get_product_found (st : Database) (l1 l2 : list document) (d : document) :
  driver_error st = None →
  product st = (l1 ++ d :: l2)%list →
  Forall (λ d', _id d' ≠ _id d) l1 →
  get_product (Some st) (ObjectId_str (_id d)) = product_doc_to_out d.
Proof.
  intros Hst Hdocs Hfresh. rewrite (get_product_lookup _ _ (proj1_sig (_id d)));
    [|done|apply ObjectId_new_str].
  rewrite Hdocs, filter_app, filter_none by by apply Forall_other_binary.
  by rewrite filter_cons_True.
Qed.

End fetching.

(** *** Validating and creating *)

Lemma validate_Ok_inv (b : ProductCreate.body) (p : ProductCreate.t) :
  ProductCreate.validate b = Ok p →
  ProductCreate.body_title b = Some (ProductCreate.title p)
  ∧ ProductCreate.description p = default None (ProductCreate.body_description b)
  ∧ ProductCreate.body_price b = Some (ProductCreate.price p)
  ∧ ProductCreate.body_category b = Some (ProductCreate.category p)
  ∧ ProductCreate.in_stock p = default true (ProductCreate.body_in_stock b)
  ∧ ProductCreate.image_url p = default None (ProductCreate.body_image_url b)
  ∧ ProductCreate.rating p = default (Some 4.5%float) (ProductCreate.body_rating b)
  ∧ price_ok (ProductCreate.price p) = true
  ∧ rating_ok (ProductCreate.rating p) = true.
Proof.
  unfold ProductCreate.validate.
  destruct (ProductCreate.body_title b) as [ti|]; [|done].
  destruct (ProductCreate.body_price b) as [pr|]; [|done].
  destruct (ProductCreate.body_category b) as [c|]; [|done].
  destruct (price_ok pr) eqn:Hp; [|done].
  destruct (rating_ok _) eqn:Hr; [|done].
  cbn [andb]. by intros [= <-].
Qed.

Lemma validate_Raise_inv (b : ProductCreate.body) (e : exn) :
  ProductCreate.validate b = Raise e → e = ValidationError (ProductCreate.errors b).
Proof.
  unfold ProductCreate.validate. repeat case_match; congruence.
Qed.

Lemma create_product_stores (st : Database) (payload : ProductCreate.t) :
  driver_error st = None →
  create_product (Some st) payload
  = (Ok (ObjectId_str (next_ids st 0)),
     Some {| product := product st
               ++ [Build_document (next_ids st 0) (ProductCreate.model_dump payload)];
             driver_error := driver_error st;
             next_ids := λ n, next_ids st (S n) |}).
Proof.
  intros Hst. unfold create_product, create_document, insert_one. by rewrite Hst.
Qed.

Section creating.
Context `{PyRuntime}.

(** A dumped payload maps back to its own fields. *)
Lemma product_doc_to_out_model_dump (oid : ObjectId) (p : ProductCreate.t) :
  price_ok (ProductCreate.price p) = true →
  rating_ok (ProductCreate.rating p) = true →
  product_doc_to_out (Build_document oid (ProductCreate.model_dump p))
  = Ok (ProductOut.Build_t (ObjectId_str oid) (ProductCreate.title p)
          (ProductCreate.description p) (ProductCreate.price p) (ProductCreate.category p)
          (ProductCreate.in_stock p) (ProductCreate.image_url p) (ProductCreate.rating p)).
Proof.
  intros Hp Hr. destruct p as [ti de pr c s u r]. cbn [ProductCreate.price ProductCreate.rating] in *.
  unfold product_doc_to_out, ProductCreate.model_dump, dict_get, dict_get_default.
  cbn [fields _id ProductCreate.title ProductCreate.description ProductCreate.price
       ProductCreate.category ProductCreate.in_stock ProductCreate.image_url
       ProductCreate.rating].
  repeat (rewrite ?lookup_insert_eq; rewrite ?lookup_insert_ne by done).
  unfold ProductOut.new.
  destruct de as [de|], u as [u|], r as [r|], s;
    cbn -[price_ok rating_ok ObjectId_str]; by rewrite Hp, Hr.
Qed.

(** C3.  For every body the model accepts, on a configured store that
    responds and assigns an identifier no stored document has yet,
    create returns the identifier's text and a following get on it
    returns a ProductOut with that id whose fields are the body's:
    [title], [price] and [category] as given, [description] and
    [image_url] as given or absent, [in_stock] as given or true, and
    [rating] as given or 4.5. *)
Theorem create_then_get (st : Database) (b : ProductCreate.body) :
  is_ok (ProductCreate.validate b) = true →
  driver_error st = None →
  Forall (λ d, _id d ≠ next_ids st 0) (product st) →
  ∃ id st' out,
    post_products (Some st) b = (Ok id, Some st')
    ∧ get_product (Some st') id = Ok out
    ∧ ProductOut.id out = id
    ∧ Some (ProductOut.title out) = ProductCreate.body_title b
    ∧ ProductOut.description out = default None (ProductCreate.body_description b)
    ∧ Some (ProductOut.price out) = ProductCreate.body_price b
    ∧ Some (ProductOut.category out) = ProductCreate.body_category b
    ∧ ProductOut.in_stock out = default true (ProductCreate.body_in_stock b)
    ∧ ProductOut.image_url out = default None (ProductCreate.body_image_url b)
    ∧ ProductOut.rating out = default (Some 4.5%float) (ProductCreate.body_rating b).
Proof.
  intros Hvalid Hst Hfresh.
  destruct (ProductCreate.validate b) as [p|] eqn:Hp; [clear Hvalid|done].
  pose proof (validate_Ok_inv _ _ Hp) as (Hti & Hde & Hpr & Hc & Hs & Hu & Hr & Hpok & Hrok).
  eexists _, _, _. split_and!.
  - unfold post_products. rewrite Hp. by apply create_product_stores.
  - set (d := Build_document (next_ids st 0) (ProductCreate.model_dump p)).
    change (next_ids st 0) with (_id d).
    erewrite (get_product_found _ (product st) [] d); [|done..].
    by apply product_doc_to_out_model_dump.
  - done.
  - by rewrite Hti.
  - done.
  - by rewrite Hpr.
  - by rewrite Hc.
  - done.
  - done.
  - done.
Qed.

End creating.

(** C7.  Validation of a create body raises [ValidationError], and no
    other exception, exactly when a field constraint is violated: [title],
    [price] or [category] is missing, [price] is not at least 0, or a
    given [rating] is not within 0 and 5.  A body with [price = -1] and a
    body with [rating = 5.1] are refused with a [ValidationError] naming
    the field, and nothing is stored.  An accepted body without [rating]
    is stored, on a configured store that responds, as a new last
    document whose [rating] is 4.5. *)
Theorem create_validation :
  (∀ b : ProductCreate.body,
     (∃ names, ProductCreate.validate b = Raise (ValidationError names))
     ↔ (ProductCreate.body_title b = None
        ∨ ProductCreate.body_price b = None
        ∨ (∃ p, ProductCreate.body_price b = Some p ∧ (0 <=? p)%float = false)
        ∨ ProductCreate.body_category b = None
        ∨ (∃ r, ProductCreate.body_rating b = Some (Some r)
                ∧ ((0 <=? r)%float && (r <=? 5)%float) = false)))
  ∧ (∀ b e, ProductCreate.validate b = Raise e → ∃ names, e = ValidationError names)
  ∧ (∀ db b, ProductCreate.body_price b = Some (-1)%float →
       ∃ names, post_products db b = (Raise (ValidationError names), db) ∧ "price" ∈ names)
  ∧ (∀ db b, ProductCreate.body_rating b = Some (Some 5.1%float) →
       ∃ names, post_products db b = (Raise (ValidationError names), db) ∧ "rating" ∈ names)
  ∧ (∀ st b, is_ok (ProductCreate.validate b) = true →
       ProductCreate.body_rating b = None →
       driver_error st = None →
       ∃ id st' d,
         post_products (Some st) b = (Ok id, Some st')
         ∧ product st' = (product st ++ [d])%list
         ∧ ObjectId_str (_id d) = id
         ∧ fields d !! "rating" = Some (PFloat 4.5%float)).
Proof.
  split_and!.
  - intros b. unfold ProductCreate.validate, price_ok.
    destruct (ProductCreate.body_title b) as [ti|]; [|split; eauto].
    destruct (ProductCreate.body_price b) as [pr|]; [|split; eauto].
    destruct (ProductCreate.body_category b) as [c|]; [|split; eauto 6].
    destruct (0 <=? pr)%float eqn:Hp; [|split; eauto 8].
    destruct (ProductCreate.body_rating b) as [[r|]|]; simpl.
    + destruct ((0 <=? r)%float && (r <=? 5)%float) eqn:Hr; [|split; eauto 10].
      split; [by intros [? ?]|]. intros [?|[?|[(p & [= <-] & ?)|[?|(r' & [= <-] & ?)]]]]; congruence.
    + split; [by intros [? ?]|]. intros [?|[?|[(p & [= <-] & ?)|[?|(r' & ? & ?)]]]]; congruence.
    + split; [by intros [? ?]|]. intros [?|[?|[(p & [= <-] & ?)|[?|(r' & ? & ?)]]]]; congruence.
  - intros b e He%validate_Raise_inv. eauto.
  - intros db b Hprice. exists (ProductCreate.errors b). split.
    + unfold post_products, ProductCreate.validate. rewrite Hprice.
      change (price_ok (-1)) with false.
      by destruct (ProductCreate.body_title b), (ProductCreate.body_category b).
    + unfold ProductCreate.errors. rewrite Hprice. cbn. set_solver.
  - intros db b Hrating. exists (ProductCreate.errors b). split.
    + unfold post_products, ProductCreate.validate. rewrite Hrating.
      change (rating_ok (default (Some 4.5%float) (Some (Some 5.1%float)))) with false.
      destruct (ProductCreate.body_title b), (ProductCreate.body_price b),
        (ProductCreate.body_category b); try done.
      by rewrite andb_false_r.
    + unfold ProductCreate.errors. rewrite Hrating. cbn. set_solver.
  - intros st b Hvalid Hrating Hst.
    destruct (ProductCreate.validate b) as [p|] eqn:Hp; [clear Hvalid|done].
    pose proof (validate_Ok_inv _ _ Hp) as (_ & _ & _ & _ & _ & _ & Hr & _ & _).
    rewrite Hrating in Hr. cbn [default] in Hr.
    eexists _, _, _. split_and!.
    + unfold post_products. rewrite Hp. by apply create_product_stores.
    + done.
    + done.
    + cbn [fields]. unfold ProductCreate.model_dump. rewrite Hr.
      repeat (rewrite ?lookup_insert_eq; rewrite ?lookup_insert_ne by done). done.
Qed.

(** *** Seeding *)

Lemma count_documents_Ok (st : Database) (n : Z) :
  count_documents st = Ok n ↔ driver_error st = None ∧ n = Z.of_nat (length (product st)).
Proof.
  unfold count_documents, driver_call. destruct (driver_error st); [|split].
  - split; [done|by intros [? _]].
  - by intros [= <-].
  - by intros [_ ->].
Qed.

(** C5.  Whenever the catalog holds at least one record, seed answers
    [{"inserted": 0, "message": "Products already exist"}] and leaves the
    store as it was: no document is written and the count is the same. *)
Theorem seed_products_already_seeded (st : Database) (n : Z) :
  count_documents st = Ok n →
  (0 < n)%Z →
  seed_products (Some st)
  = (Ok (<["inserted" := PInt 0]> (<["message" := PStr "Products already exist"]> ∅)), Some st)
  ∧ ∀ db', snd (seed_products (Some st)) = db' →
      db' = Some st ∧ (count_documents <$> db') = Some (Ok n).
Proof.
  intros Hcount Hn.
  assert (Hseed : seed_products (Some st)
                  = (Ok (<["inserted" := PInt 0]>
                           (<["message" := PStr "Products already exist"]> ∅)), Some st)).
  { unfold seed_products. rewrite Hcount.
    by destruct (Z.gtb_spec n 0); [|lia]. }
  split; [done|]. rewrite Hseed. cbn [snd]. intros db' <-. cbn. by rewrite Hcount.
Qed.

(** C6.  When the catalog is empty, seed answers [{"inserted": 4}] and
    the store then holds exactly four records, whose titles are the
    fixture's, in its order. *)
Theorem seed_products_empty (st : Database) :
  count_documents st = Ok 0%Z →
  ∃ st',
    seed_products (Some st) = (Ok (<["inserted" := PInt 4]> ∅), Some st')
    ∧ length (product st') = 4%nat
    ∧ count_documents st' = Ok 4%Z
    ∧ map (λ d, fields d !! "title") (product st')
      = [Some (PStr "Pastel Visa Card"); Some (PStr "Digital Wallet Subscription");
         Some (PStr "Smart NFC Tag"); Some (PStr "Premium Card Holder")]
    ∧ map fields (product st') = sample_products.
Proof.
  intros [Hst Hlen]%count_documents_Ok.
  assert (Hdocs : product st = []) by (apply nil_length_inv; lia).
  unfold seed_products, count_documents, insert_many, driver_call.
  rewrite Hst, Hdocs. cbn [length Z.of_nat Z.gtb Z.compare].
  eexists. split_and!; [reflexivity| | | |]; cbn [product driver_error]; try rewrite Hst; done.
Qed.

(** *** Closed instances *)



Lemma product_doc_to_out_null_rating_witness :
  @product_doc_to_out example_runtime
    (Build_document (example_id 7) (<["rating" := PNone]> example_fields))
  = Ok (ProductOut.Build_t "000000000000000000000007" "Smart NFC Tag"
          (Some "Tap-to-pay accessory for seamless checkout") 14.5 "Accessories" true
          (Some "https://example.org/nfc-tag.png") None)
  ∧ @product_doc_to_out example_runtime
      (Build_document (example_id 7) (delete "rating" example_fields))
    = Ok (ProductOut.Build_t "000000000000000000000007" "Smart NFC Tag"
            (Some "Tap-to-pay accessory for seamless checkout") 14.5 "Accessories" true
            (Some "https://example.org/nfc-tag.png") None).
Proof.
  destruct (@product_doc_to_out_null_rating example_runtime (example_id 7) example_fields)
    as (Hsame & _ & Hmaps).
  rewrite <- Hsame.
  by rewrite (Hmaps "Smart NFC Tag" (Some "Tap-to-pay accessory for seamless checkout")
                14.5%float "Accessories" (Some "https://example.org/nfc-tag.png")).
Defined.

(** C2 fails as stated: with the empty string as category, the seeded
    store's four records are all returned, none of which stores the
    empty category. *)
Lemma list_products_empty_category :
  (map ProductOut.category <$> @list_products example_runtime (Some seeded_store) None (Some ""))
  = Ok ["Cards"; "Services"; "Accessories"; "Accessories"].
Proof. by vm_compute. Qed.

Lemma list_products_by_category_witness :
  driver_error seeded_store = None
  ∧ "Accessories" ≠ ""
  ∧ (map ProductOut.title
       <$> @list_products example_runtime (Some seeded_store) None (Some "Accessories"))
    = Ok ["Smart NFC Tag"; "Premium Card Holder"]
  ∧ @list_products example_runtime (Some seeded_store) None (Some "Gadgets") = Ok [].
Proof.
  split_and!; [done|done| |].
  - destruct (@list_products_by_category example_runtime seeded_store "Accessories")
      as (-> & _); done.
  - destruct (@list_products_by_category example_runtime seeded_store "Gadgets")
      as (_ & Hnone & _); [done|done|]. by apply Hnone.
Defined.

Lemma list_products_limit_witness :
  (0 ≤ 1)%Z
  ∧ (length <$> @list_products example_runtime (Some seeded_store) (Some 1%Z) (Some "Accessories"))
    = Ok 1%nat
  ∧ (length <$> @list_products example_runtime (Some seeded_store) None (Some "Accessories"))
    = Ok 2%nat.
Proof.
  destruct (@list_products_limit example_runtime (Some seeded_store) 1 (Some "Accessories"))
    as [_ Hlist]; [done|].
  destruct (Hlist seeded_store) as (-> & -> & _); done.
Defined.

(** Without a store ([db is None]) every operation answers status 500
    before it looks at its arguments. *)
Lemma get_product_store_not_configured :
  ObjectId_is_valid "not-an-id" = false
  ∧ @get_product example_runtime None "not-an-id"
    = Raise (HTTPException 500 "Database not configured").
Proof. by vm_compute. Qed.



Lemma get_product_lookup_failure_witness :
  ObjectId_new "000000000000000000000001" = Ok (proj1_sig (example_id 1))
  ∧ find_one failing_store (proj1_sig (example_id 1))
    = Raise (PyMongoError "connection refused")
  ∧ @get_product example_runtime (Some failing_store) "000000000000000000000001"
    = Raise (HTTPException 400 "Invalid product id").
Proof.
  split_and!; [done|done|].
  by apply (@get_product_lookup_failure example_runtime failing_store _
              (proj1_sig (example_id 1)) (PyMongoError "connection refused")).
Defined.

Lemma create_then_get_witness :
  is_ok (ProductCreate.validate example_body) = true
  ∧ driver_error seeded_store = None
  ∧ Forall (λ d, _id d ≠ next_ids seeded_store 0) (product seeded_store)
  ∧ ∃ st' out,
      post_products (Some seeded_store) example_body = (Ok "000000000000000000000004", Some st')
      ∧ @get_product example_runtime (Some st') "000000000000000000000004" = Ok out
      ∧ ProductOut.title out = "Gift Card"
      ∧ ProductOut.in_stock out = true
      ∧ ProductOut.rating out = Some 4.5%float.
Proof.
  assert (Hfresh : Forall (λ d, _id d ≠ next_ids seeded_store 0) (product seeded_store)).
  { repeat constructor; by intros [=]. }
  split_and!; [done|done|done|].
  destruct (@create_then_get example_runtime seeded_store example_body)
    as (id & st' & out & Hpost & Hget & _ & Hti & _ & _ & _ & Hs & _ & Hr); [done..|].
  injection Hpost as <- <-. eexists _, out. split_and!; [done|done| |done|done].
  by injection Hti.
Defined.

Lemma seed_products_already_seeded_witness :
  count_documents seeded_store = Ok 4%Z
  ∧ (0 < 4)%Z
  ∧ snd (seed_products (Some seeded_store)) = Some seeded_store.
Proof.
  split_and!; [done|done|].
  by destruct (seed_products_already_seeded seeded_store 4) as [-> _].
Defined.

Lemma seed_products_empty_witness :
  count_documents empty_store = Ok 0%Z
  ∧ ∃ st', seed_products (Some empty_store) = (Ok (<["inserted" := PInt 4]> ∅), Some st')
           ∧ length (product st') = 4%nat.
Proof.
  split; [done|].
  destruct (seed_products_empty empty_store) as (st' & Hseed & Hlen & _); [done|].
  by exists st'.
Defined.

(** ** Further properties of main.py *)

(** *** The identifier helper *)

Lemma length_ObjectId_str (oid : ObjectId) : String.length (ObjectId_str oid) = 24%nat.
Proof. destruct oid as [bs Hbs]. unfold ObjectId_str. cbn [proj1_sig]. rewrite length_hexlify. lia. Qed.

Lemma ObjectId_is_valid_value_text (s : string) :
  ObjectId_is_valid_value (PStr s) = ObjectId_is_valid s.
Proof.
  unfold ObjectId_is_valid_value. cbn [py_bool].
  destruct (String.eqb_spec s "") as [->|_]; [done|]. by destruct (ObjectId_is_valid s).
Qed.

Lemma PyObjectId_validate_cases (v : pyval) :
  PyObjectId.validate v
  = match v with
    | PObjectId oid => Ok (proj1_sig oid)
    | PStr s =>
        match ObjectId_new s with
        | Ok oid => Ok oid
        | Raise _ => Raise ValueError
        end
    | _ => Raise ValueError
    end.
Proof.
  destruct v as [|b|z|f|s|o|l|d]; try done;
    unfold PyObjectId.validate, ObjectId_is_valid_value; rewrite ?andb_false_r; try done.
  fold (ObjectId_is_valid_value (PStr s)). rewrite ObjectId_is_valid_value_text.
  unfold ObjectId_is_valid. by destruct (ObjectId_new s).
Qed.

(** X1.  Of the values modelled (None, booleans, numbers, texts,
    identifiers, lists and dicts), [PyObjectId.validate] accepts the
    identifiers, which it returns unchanged, and the texts [ObjectId]
    reads, for which it returns the identifier [ObjectId] builds; on
    every other value it raises [ValueError], never [InvalidId] or
    [TypeError]. *)
Theorem PyObjectId_validate_accepts (v : pyval) :
  (∀ b, PyObjectId.validate v = Ok b
        ↔ (∃ oid, v = PObjectId oid ∧ b = proj1_sig oid)
          ∨ ∃ s, v = PStr s ∧ ObjectId_new s = Ok b)
  ∧ (∀ e, PyObjectId.validate v = Raise e → e = ValueError).
Proof.
  rewrite PyObjectId_validate_cases. split.
  - intros b. split.
    + destruct v as [| | | |s|o| |]; try done.
      * destruct (ObjectId_new s) eqn:Hs; [|done]. intros [= <-]. eauto.
      * intros [= <-]. left. eauto.
    + intros [(oid & -> & ->)|(s & -> & Hs)]; [done|]. by rewrite Hs.
  - intros e. destruct v as [| | | |s|o| |]; try by intros [= <-].
    destruct (ObjectId_new s); [done|]. by intros [= <-].
Qed.

(** X2.  The text form round-trips for twelve-byte identifiers, and for
    those only: the text form of an identifier of the store has 24
    characters, is valid, and validates to the identifier; in general
    the hexadecimal text of a binary validates to that binary exactly
    when it has twelve bytes.  So the eight-byte identifier validated
    from a text of digit pairs and spaces has a text form that does not
    validate. *)
Theorem PyObjectId_validate_round_trip :
  (∀ oid : ObjectId,
     String.length (ObjectId_str oid) = 24%nat
     ∧ ObjectId_is_valid_value (PStr (ObjectId_str oid)) = true
     ∧ PyObjectId.validate (PStr (ObjectId_str oid)) = Ok (proj1_sig oid))
  ∧ (∀ b : list byte, PyObjectId.validate (PStr (hexlify b)) = Ok b ↔ length b = 12%nat)
  ∧ PyObjectId.validate (PStr "00 00 00 00 00 00 00 00 ") = Ok (replicate 8 x00)
  ∧ PyObjectId.validate (PStr (hexlify (replicate 8 x00))) = Raise ValueError.
Proof.
  split_and!.
  - intros oid. split_and!; [apply length_ObjectId_str| |].
    + rewrite ObjectId_is_valid_value_text. apply ObjectId_is_valid_str.
    + by rewrite PyObjectId_validate_cases, ObjectId_new_str.
  - intros b. rewrite PyObjectId_validate_cases. unfold ObjectId_new.
    rewrite length_hexlify, fromhex_hexlify. case_bool_decide as Hlen.
    + split; [lia|done].
    + split; [done|lia].
  - by vm_compute.
  - by vm_compute.
Qed.

(** *** More on the mapping *)

Lemma field_error_sublist (name : string) (ok : bool) : field_error name ok `sublist_of` [name].
Proof. destruct ok; [apply sublist_nil_l|done]. Qed.

Lemma ProductOut_errors_sublist (title description : pyval) (price : float)
    (category image_url : pyval) (rating : option float) :
  ProductOut.errors title description price category image_url rating
  `sublist_of` ["title"; "description"; "price"; "category"; "image_url"; "rating"].
Proof.
  unfold ProductOut.errors.
  change ["title"; "description"; "price"; "category"; "image_url"; "rating"]
    with (["title"] ++ ["description"] ++ ["price"] ++ ["category"] ++ ["image_url"]
          ++ ["rating"])%list.
  repeat apply sublist_app; apply field_error_sublist.
Qed.

Lemma ProductOut_new_Raise_inv (id : string) (title description : pyval) (price : float)
    (category : pyval) (in_stock : bool) (image_url : pyval) (rating : option float) (e : exn) :
  ProductOut.new id title description price category in_stock image_url rating = Raise e →
  e = ValidationError (ProductOut.errors title description price category image_url rating)
  ∧ ProductOut.errors title description price category image_url rating ≠ [].
Proof.
  unfold ProductOut.new, ProductOut.errors.
  destruct (as_str title), (as_optional_str description), (price_ok price), (as_str category),
    (as_optional_str image_url), (rating_ok rating); cbn; intros [= <-]; done.
Qed.

Section mapping_more.
Context `{PyRuntime}.

Lemma py_float_Raise_inv (v : pyval) (e : exn) :
  py_float v = Raise e → e = TypeError ∨ e = ValueError ∨ e = OverflowError.
Proof.
  destruct v as [|b|z|f|s|o|l|d]; cbn [py_float]; try (intros [= <-]; by eauto).
  - unfold float_of_int. destruct (binary_normalize _ _ _ _ _); intros [= <-]; eauto.
  - destruct (float_of_str s); intros [= <-]; eauto.
Qed.

Lemma product_doc_to_out_Raise_inv (doc : document) (e : exn) :
  product_doc_to_out doc = Raise e →
  e = TypeError ∨ e = ValueError ∨ e = OverflowError
  ∨ ∃ names, e = ValidationError names ∧ names ≠ []
             ∧ names `sublist_of` ["title"; "description"; "price"; "category"; "image_url";
                                   "rating"].
Proof.
  unfold product_doc_to_out.
  destruct (py_float (dict_get_default (fields doc) "price" (PInt 0))) as [p|e'] eqn:Hp.
  2:{ intros [= <-]. apply py_float_Raise_inv in Hp. tauto. }
  cbn [mbind result_bind]. rewrite rating_argument.
  destruct (dict_get (fields doc) "rating") as [|b|z|f|s|o|l|d] eqn:Hv;
    cbn [mbind result_bind].
  1:{ intros (-> & Hne)%ProductOut_new_Raise_inv.
      do 3 right. eexists. split_and!; [done|done|apply ProductOut_errors_sublist]. }
  all: match goal with
       | |- context [py_float ?v] => destruct (py_float v) as [x|e'] eqn:Hx
       end;
       [cbn [fmap result_fmap mbind result_bind];
        intros (-> & Hne)%ProductOut_new_Raise_inv;
        do 3 right; eexists; split_and!; [done|done|apply ProductOut_errors_sublist]
       |intros [= <-]; apply py_float_Raise_inv in Hx; tauto].
Qed.

(** X3.  When the mapping refuses a stored document, it raises the
    conversion error of [float] ([TypeError], [ValueError] or
    [OverflowError]) or a [ValidationError] that names at least one field,
    each of them one of [title], [description], [price], [category],
    [image_url], [rating], in that order; never an [HTTPException]. *)
Theorem product_doc_to_out_errors (doc : document) (e : exn) :
  product_doc_to_out doc = Raise e →
  (e = TypeError ∨ e = ValueError ∨ e = OverflowError
   ∨ ∃ names, e = ValidationError names ∧ names ≠ []
              ∧ names `sublist_of` ["title"; "description"; "price"; "category"; "image_url";
                                    "rating"])
  ∧ ∀ status_code detail, e ≠ HTTPException status_code detail.
Proof.
  intros He. pose proof (product_doc_to_out_Raise_inv _ _ He) as Hcases.
  split; [done|]. intros c m ->.
  destruct Hcases as [?|[?|[?|(names & ? & _)]]]; done.
Qed.

(** X4.  Whatever the mapping returns satisfies the output model: the
    price is at least 0, the rating is absent or within 0 and 5, and the
    id is the 24-character text that decodes to the stored identifier. *)
Theorem product_doc_to_out_output_valid (doc : document) (out : ProductOut.t) :
  product_doc_to_out doc = Ok out →
  price_ok (ProductOut.price out) = true
  ∧ rating_ok (ProductOut.rating out) = true
  ∧ String.length (ProductOut.id out) = 24%nat
  ∧ ObjectId_new (ProductOut.id out) = Ok (proj1_sig (_id doc)).
Proof.
  intros (ti & d & p & c & u & r & _ & _ & _ & Hp & _ & _ & _ & Hr & ->)%product_doc_to_out_ok_inv.
  cbn [ProductOut.price ProductOut.rating ProductOut.id].
  split_and!; [done|done|apply length_ObjectId_str|apply ObjectId_new_str].
Qed.

(** X5.  The mapping reads the seven product keys and the identifier
    only: setting or removing any other key of a stored document changes
    neither the record returned nor the exception raised. *)
Theorem product_doc_to_out_other_keys (oid : ObjectId) (d : dict) (k : string) (v : pyval) :
  k ∉ ["title"; "description"; "price"; "category"; "in_stock"; "image_url"; "rating"] →
  product_doc_to_out (Build_document oid (<[k := v]> d)) = product_doc_to_out (Build_document oid d)
  ∧ product_doc_to_out (Build_document oid (delete k d)) = product_doc_to_out (Build_document oid d).
Proof.
  intros Hk.
  assert (Hne : ∀ k', k' ∈ ["title"; "description"; "price"; "category"; "in_stock";
                            "image_url"; "rating"] → k ≠ k').
  { intros k' Hk' ->. done. }
  unfold product_doc_to_out, dict_get, dict_get_default. cbn [fields _id].
  split.
  - rewrite !lookup_insert_ne by (apply Hne; set_solver). done.
  - rewrite !lookup_delete_ne by (apply Hne; set_solver). done.
Qed.

(** X6.  Null is not absent for [price] and [in_stock]: a stored null
    price makes the mapping raise [TypeError], where an absent one reads
    as 0.0; a stored null [in_stock] fails or succeeds as the same
    document without the key does, but reads as false where the absent
    one reads as true. *)
Theorem product_doc_to_out_null_fields (oid : ObjectId) (d : dict) :
  product_doc_to_out (Build_document oid (<["price" := PNone]> d)) = Raise TypeError
  ∧ is_ok (product_doc_to_out (Build_document oid (<["in_stock" := PNone]> d)))
    = is_ok (product_doc_to_out (Build_document oid (delete "in_stock" d)))
  ∧ (∀ out, product_doc_to_out (Build_document oid (<["in_stock" := PNone]> d)) = Ok out →
       ProductOut.in_stock out = false)
  ∧ (∀ out, product_doc_to_out (Build_document oid (delete "in_stock" d)) = Ok out →
       ProductOut.in_stock out = true).
Proof.
  split_and!.
  - unfold product_doc_to_out, dict_get_default. cbn [fields].
    by rewrite lookup_insert_eq.
  - unfold product_doc_to_out, dict_get, dict_get_default, ProductOut.new. cbn [fields _id].
    assert (Hget : ∀ k, k ≠ "in_stock" →
              (<["in_stock" := PNone]> d : dict) !! k = d !! k
              ∧ (delete "in_stock" d : dict) !! k = d !! k).
    { intros k Hk. by rewrite lookup_insert_ne, lookup_delete_ne. }
    destruct (Hget "title") as [-> ->]; [done|].
    destruct (Hget "description") as [-> ->]; [done|].
    destruct (Hget "price") as [-> ->]; [done|].
    destruct (Hget "category") as [-> ->]; [done|].
    destruct (Hget "image_url") as [-> ->]; [done|].
    destruct (Hget "rating") as [-> ->]; [done|].
    destruct (py_float (default (PInt 0) (d !! "price"))) as [p|]; [|done].
    cbn [mbind result_bind].
    destruct (if is_not_None _ then _ else _) as [r|]; [|done]. cbn [mbind result_bind].
    by repeat case_match.
  - intros out (ti & de & p & c & u & r & _ & _ & _ & _ & _ & _ & _ & _ & ->)%product_doc_to_out_ok_inv.
    cbn [ProductOut.in_stock fields]. unfold dict_get_default. by rewrite lookup_insert_eq.
  - intros out (ti & de & p & c & u & r & _ & _ & _ & _ & _ & _ & _ & _ & ->)%product_doc_to_out_ok_inv.
    cbn [ProductOut.in_stock fields]. unfold dict_get_default. by rewrite lookup_delete_eq.
Qed.

(** X7.  What validation accepts, the mapping accepts: a validated
    payload dumped into a stored document maps to a record with exactly
    the payload's fields, under the text form of the identifier. *)
Theorem validated_payload_maps_back (oid : ObjectId) (b : ProductCreate.body)
    (p : ProductCreate.t) :
  ProductCreate.validate b = Ok p →
  product_doc_to_out (Build_document oid (ProductCreate.model_dump p))
  = Ok (ProductOut.Build_t (ObjectId_str oid) (ProductCreate.title p)
          (ProductCreate.description p) (ProductCreate.price p) (ProductCreate.category p)
          (ProductCreate.in_stock p) (ProductCreate.image_url p) (ProductCreate.rating p)).
Proof.
  intros (_ & _ & _ & _ & _ & _ & _ & Hp & Hr)%validate_Ok_inv.
  by apply product_doc_to_out_model_dump.
Qed.

End mapping_more.

(** *** More on fetching *)

Section fetching_more.
Context `{PyRuntime}.

Lemma get_product_Raise_inv (db : option Database) (product_id : string) (e : exn) :
  get_product db product_id = Raise e →
  (db = None ∧ e = HTTPException 500 "Database not configured")
  ∨ e = HTTPException 400 "Invalid product id"
  ∨ e = HTTPException 404 "Product not found"
  ∨ ∃ st d, db = Some st ∧ d ∈ product st ∧ product_doc_to_out d = Raise e.
Proof.
  destruct db as [st|]; [|intros [= <-]; by left].
  unfold get_product.
  destruct (ObjectId_new product_id) as [oid|]; [|intros [= <-]; eauto].
  cbn [mbind result_bind]. unfold find_one, driver_call.
  destruct (driver_error st); [intros [= <-]; eauto|].
  cbn [try_except mbind result_bind].
  destruct (head (filter _ (product st))) as [d|] eqn:Hd; [|intros [= <-]; eauto].
  intros He. do 3 right. exists st, d. split_and!; [done| |done].
  apply head_Some_elem_of in Hd. by apply list_elem_of_filter in Hd as [_ ?].
Qed.

(** X8.  A well-formed identifier that no stored document holds is not
    found: on a store that responds, [get_product] answers status 404,
    "Product not found", whatever the spelling of the identifier. *)
Theorem get_product_unassigned_id (st : Database) (product_id : string) (oid : ObjectId) :
  driver_error st = None →
  ObjectId_new product_id = Ok (proj1_sig oid) →
  Forall (λ d, _id d ≠ oid) (product st) →
  get_product (Some st) product_id = Raise (HTTPException 404 "Product not found").
Proof.
  intros Hst Hoid Hnone. rewrite (get_product_lookup _ _ (proj1_sig oid)) by done.
  by rewrite filter_none by by apply Forall_other_binary.
Qed.

(** X9.  [get_product] answers with the first stored document that holds
    the identifier: it returns that document's mapping, or raises what
    the mapping raises, whatever follows it in the collection. *)
Theorem get_product_first_match (st : Database) (product_id : string)
    (l1 l2 : list document) (d : document) :
  driver_error st = None →
  ObjectId_new product_id = Ok (proj1_sig (_id d)) →
  product st = (l1 ++ d :: l2)%list →
  Forall (λ d', _id d' ≠ _id d) l1 →
  get_product (Some st) product_id = product_doc_to_out d.
Proof.
  intros Hst Hoid Hdocs Hfresh. rewrite (get_product_lookup _ _ (proj1_sig (_id d))) by done.
  rewrite Hdocs, filter_app, filter_none by by apply Forall_other_binary.
  by rewrite filter_cons_True.
Qed.

(** X10.  [get_product] fails in four ways only: status 500 when no
    store is configured, status 400 "Invalid product id", status 404
    "Product not found", or the exception the mapping raises on a stored
    document.  [InvalidId] and the driver's exceptions never reach the
    caller. *)
Theorem get_product_errors (db : option Database) (product_id : string) (e : exn) :
  get_product db product_id = Raise e →
  ((db = None ∧ e = HTTPException 500 "Database not configured")
   ∨ e = HTTPException 400 "Invalid product id"
   ∨ e = HTTPException 404 "Product not found"
   ∨ ∃ st d, db = Some st ∧ d ∈ product st ∧ product_doc_to_out d = Raise e)
  ∧ e ≠ InvalidId
  ∧ ∀ msg, e ≠ PyMongoError msg.
Proof.
  intros He. pose proof (get_product_Raise_inv _ _ _ He) as Hcases.
  split; [done|].
  assert (Hmap : ∀ d, product_doc_to_out d = Raise e → e ≠ InvalidId ∧ ∀ msg, e ≠ PyMongoError msg).
  { intros d [?|[?|[?|(names & ? & _)]]]%product_doc_to_out_Raise_inv; by subst. }
  destruct Hcases as [[_ ->]|[->|[->|(st & d & _ & _ & Hd)]]]; [done..|by eapply Hmap].
Qed.


(** X12.  Every stored record can be fetched by the id it is shown
    under: on a store that responds and whose identifiers are pairwise
    distinct, a stored document that maps to a record is what
    [get_product] returns for that record's id. *)
Theorem stored_record_fetchable (st : Database) (d : document) (out : ProductOut.t) :
  driver_error st = None →
  NoDup (_id <$> product st) →
  d ∈ product st →
  product_doc_to_out d = Ok out →
  get_product (Some st) (ProductOut.id out) = Ok out.
Proof.
  intros Hst Hnodup Hd Hout.
  apply list_elem_of_split in Hd as (l1 & l2 & Hdocs).
  assert (Hfresh : Forall (λ d', _id d' ≠ _id d) l1).
  { rewrite Hdocs, fmap_app, fmap_cons in Hnodup.
    apply NoDup_app in Hnodup as (_ & Hdisj & _).
    apply Forall_forall. intros d' Hd' Heq. apply (Hdisj (_id d')).
    - by apply list_elem_of_fmap_2.
    - rewrite Heq. apply list_elem_of_here. }
  assert (Hid : ProductOut.id out = ObjectId_str (_id d)).
  { by apply product_doc_to_out_ok_inv in Hout
      as (? & ? & ? & ? & ? & ? & _ & _ & _ & _ & _ & _ & _ & _ & ->). }
  rewrite Hid, (get_product_found st l1 l2 d); done.
Qed.

End fetching_more.

(** *** More on comprehensions *)

Lemma list_comprehension_app {A B} (f : A → result B) (xs1 xs2 : list A) :
  list_comprehension f (xs1 ++ xs2)
  = (ys1 ← list_comprehension f xs1; ys2 ← list_comprehension f xs2; Ok (ys1 ++ ys2))%list.
Proof.
  induction xs1 as [|x xs1 IH]; cbn [list_comprehension app].
  - cbn [mbind result_bind]. by destruct (list_comprehension f xs2).
  - destruct (f x) as [y|]; [|done]. cbn [mbind result_bind]. rewrite IH.
    destruct (list_comprehension f xs1) as [ys1|]; [|done]. cbn [mbind result_bind].
    by destruct (list_comprehension f xs2).
Qed.

Lemma list_comprehension_Raise_inv {A B} (f : A → result B) (xs : list A) (e : exn) :
  list_comprehension f xs = Raise e →
  ∃ xs1 x xs2, xs = (xs1 ++ x :: xs2)%list
               ∧ Forall (λ x', is_ok (f x') = true) xs1 ∧ f x = Raise e.
Proof.
  induction xs as [|x xs IH]; [done|]. cbn [list_comprehension].
  destruct (f x) as [y|e'] eqn:Hx.
  - cbn [mbind result_bind].
    destruct (list_comprehension f xs) as [ys|e'] eqn:Hxs; [done|].
    intros [= <-]. destruct IH as (xs1 & x' & xs2 & -> & Hok & Hx'); [done|].
    exists (x :: xs1), x', xs2. split_and!; [done| |done].
    constructor; [by rewrite Hx|done].
  - intros [= <-]. exists [], x, xs. by split_and!.
Qed.

Lemma list_comprehension_first_failure {A B} (f : A → result B) (xs1 xs2 : list A) (x : A)
    (e : exn) :
  Forall (λ x', is_ok (f x') = true) xs1 →
  f x = Raise e →
  list_comprehension f (xs1 ++ x :: xs2) = Raise e.
Proof.
  intros Hok%list_comprehension_is_ok Hx. rewrite list_comprehension_app.
  destruct (list_comprehension f xs1); [|done]. cbn [mbind result_bind list_comprehension].
  by rewrite Hx.
Qed.

(** *** More on seeding *)

(** The reply of a seed that finds products. *)
Lemma seed_products_nonempty (st : Database) :
  driver_error st = None →
  product st ≠ [] →
  seed_products (Some st)
  = (Ok (<["inserted" := PInt 0]> (<["message" := PStr "Products already exist"]> ∅)), Some st).
Proof.
  intros Hst Hdocs. unfold seed_products, count_documents, driver_call. rewrite Hst.
  destruct (product st) as [|d docs]; [done|]. done.
Qed.

(** The reply of a seed that finds none. *)
Lemma seed_products_inserts (st : Database) :
  driver_error st = None →
  product st = [] →
  seed_products (Some st)
  = (Ok (<["inserted" := PInt 4]> ∅),
     Some {| product := zip_with Build_document (next_ids st <$> [0; 1; 2; 3]%nat) sample_products;
             driver_error := None;
             next_ids := λ n, next_ids st (4 + n)%nat |}).
Proof.
  intros Hst Hdocs. unfold seed_products, count_documents, insert_many, driver_call.
  by rewrite Hst, Hdocs.
Qed.

Lemma seed_products_failing (st : Database) (msg : string) :
  driver_error st = Some msg →
  seed_products (Some st) = (Raise (PyMongoError msg), Some st).
Proof.
  intros Hst. unfold seed_products, count_documents, driver_call. by rewrite Hst.
Qed.

(** X13.  Seeding is idempotent: after a seed on a store that responds,
    whether it inserted or not, a further seed answers
    [{"inserted": 0, "message": "Products already exist"}] and leaves the
    store as the first seed left it. *)
Theorem seed_products_twice (st : Database) (r : result dict) (db' : option Database) :
  driver_error st = None →
  seed_products (Some st) = (r, db') →
  seed_products db'
  = (Ok (<["inserted" := PInt 0]> (<["message" := PStr "Products already exist"]> ∅)), db').
Proof.
  intros Hst Hseed. destruct (decide (product st = [])) as [Hdocs|Hdocs].
  - rewrite seed_products_inserts in Hseed by done. injection Hseed as <- <-.
    by apply seed_products_nonempty.
  - rewrite seed_products_nonempty in Hseed by done. injection Hseed as <- <-.
    by apply seed_products_nonempty.
Qed.

(** X14.  A seed that returns has only appended: the stored documents
    are kept, in order, in front of what it inserted, which is nothing,
    or four documents when the catalog was empty; the reply's [inserted]
    is that number. *)
Theorem seed_products_appends (st : Database) (reply : dict) (db' : option Database) :
  seed_products (Some st) = (Ok reply, db') →
  ∃ st' new,
    db' = Some st'
    ∧ product st' = (product st ++ new)%list
    ∧ (new = [] ∨ length new = 4%nat ∧ product st = [])
    ∧ reply !! "inserted" = Some (PInt (Z.of_nat (length new))).
Proof.
  intros Hseed. destruct (driver_error st) as [msg|] eqn:Hst.
  { by rewrite (seed_products_failing _ msg) in Hseed. }
  destruct (decide (product st = [])) as [Hdocs|Hdocs].
  - rewrite seed_products_inserts in Hseed by done. injection Hseed as <- <-.
    eexists _, (zip_with Build_document (next_ids st <$> [0; 1; 2; 3]%nat) sample_products).
    split_and!; [done|by rewrite Hdocs|right; by split|done].
  - rewrite seed_products_nonempty in Hseed by done. injection Hseed as <- <-.
    exists st, []. rewrite app_nil_r. split_and!; eauto.
Qed.

Section seeding_more.
Context `{PyRuntime}.

(** X15.  The fixture passes the output model although seed stores it
    without validation: after a seed on an empty catalog, every stored
    document maps to a record, in stock, with its fixture title, so the
    unfiltered listing returns the four fixture products. *)
Theorem seed_products_then_list (st : Database) (r : result dict) (db' : option Database) :
  count_documents st = Ok 0%Z →
  seed_products (Some st) = (r, db') →
  ∃ outs,
    list_products db' None None = Ok outs
    ∧ ProductOut.title <$> outs
      = ["Pastel Visa Card"; "Digital Wallet Subscription"; "Smart NFC Tag";
         "Premium Card Holder"]
    ∧ ProductOut.category <$> outs = ["Cards"; "Services"; "Accessories"; "Accessories"]
    ∧ Forall (λ out, ProductOut.in_stock out = true) outs.
Proof.
  intros [Hst Hlen]%count_documents_Ok Hseed.
  assert (Hdocs : product st = []) by (apply nil_length_inv; lia).
  rewrite seed_products_inserts in Hseed by done. injection Hseed as <- <-.
  rewrite list_products_selected by done. cbn [product].
  rewrite filter_all by (apply Forall_forall; done).
  eexists. split_and!; [reflexivity|done|done|]. by repeat constructor.
Qed.

End seeding_more.

(** *** More on validating and creating *)

Lemma ProductCreate_errors_sublist (b : ProductCreate.body) :
  ProductCreate.errors b `sublist_of` ["title"; "price"; "category"; "rating"].
Proof.
  unfold ProductCreate.errors.
  change ["title"; "price"; "category"; "rating"]
    with (["title"] ++ ["price"] ++ ["category"] ++ ["rating"])%list.
  repeat apply sublist_app; apply field_error_sublist.
Qed.

(** X16.  For a body whose given fields have their declared types: it
    is accepted exactly when no field breaks a constraint, and a refusal
    names the fields that do: at least one, each of [title], [price],
    [category], [rating], in that order.  A refused body leaves the
    store as it is, configured or not. *)
Theorem validate_names_offending_fields (b : ProductCreate.body) :
  (is_ok (ProductCreate.validate b) = true ↔ ProductCreate.errors b = [])
  ∧ ∀ e, ProductCreate.validate b = Raise e →
      e = ValidationError (ProductCreate.errors b)
      ∧ ProductCreate.errors b ≠ []
      ∧ ProductCreate.errors b `sublist_of` ["title"; "price"; "category"; "rating"]
      ∧ ∀ db, post_products db b = (Raise e, db).
Proof.
  assert (Hiff : is_ok (ProductCreate.validate b) = true ↔ ProductCreate.errors b = []).
  { unfold ProductCreate.validate, ProductCreate.errors.
    destruct (ProductCreate.body_title b) as [ti|]; [|done].
    destruct (ProductCreate.body_price b) as [pr|]; [|done].
    destruct (ProductCreate.body_category b) as [c|]; cbn [from_option];
      [|by destruct (price_ok pr)].
    destruct (price_ok pr); [|done].
    destruct (ProductCreate.body_rating b) as [r|]; cbn -[rating_ok];
      [by destruct (rating_ok r)|done]. }
  split; [done|]. intros e He.
  pose proof (validate_Raise_inv _ _ He) as ->.
  split_and!; [done| |apply ProductCreate_errors_sublist|].
  - intros Hnil. apply Hiff in Hnil. by rewrite He in Hnil.
  - intros db. unfold post_products. by rewrite He.
Qed.

Lemma seed_products_after_insert (ds : list document) (d : document)
    (ids : nat → ObjectId) :
  seed_products (Some (Build_Database (ds ++ [d]) None ids))
  = (Ok (<["inserted" := PInt 0]> (<["message" := PStr "Products already exist"]> ∅)),
     Some (Build_Database (ds ++ [d]) None ids)).
Proof. apply seed_products_nonempty; [done|]. cbn [product]. by destruct ds. Qed.

(** X17.  A successful create adds exactly one document, last, holding
    the payload's dump under the identifier returned, and keeps the
    others; the count goes up by one, and a seed that follows inserts
    nothing. *)
Theorem create_product_then_seed (st : Database) (payload : ProductCreate.t) (id : string)
    (db' : option Database) :
  create_product (Some st) payload = (Ok id, db') →
  ∃ st' d,
    db' = Some st'
    ∧ product st' = (product st ++ [d])%list
    ∧ fields d = ProductCreate.model_dump payload
    ∧ ObjectId_str (_id d) = id
    ∧ (∀ n, count_documents st = Ok n → count_documents st' = Ok (n + 1)%Z)
    ∧ seed_products db'
      = (Ok (<["inserted" := PInt 0]> (<["message" := PStr "Products already exist"]> ∅)), db').
Proof.
  destruct (driver_error st) as [msg|] eqn:Hst.
  { unfold create_product, create_document, insert_one. by rewrite Hst. }
  rewrite create_product_stores by done. intros [= <- <-].
  eexists _, (Build_document (next_ids st 0) (ProductCreate.model_dump payload)).
  split_and!; [done|done|done|done| |].
  - intros n [_ ->]%count_documents_Ok. apply count_documents_Ok. cbn [product driver_error].
    split; [done|]. rewrite length_app. cbn [length]. lia.
  - rewrite Hst. by apply seed_products_after_insert.
Qed.

(** *** More on listing *)

Section listing_more.
Context `{PyRuntime}.

(** X18.  One stored document that does not map makes the listing fail:
    on a store that responds, [list_products] raises what the mapping
    raises on the first document, among those the category selects and
    the limit keeps, that the mapping refuses. *)
Theorem list_products_first_failure (st : Database) (limit : option Z)
    (category : option string) (l1 l2 : list document) (d : document) (e : exn) :
  driver_error st = None →
  (let found := filter (selected category) (product st) in
   match limit with
   | Some n => take (Z.to_nat n) found
   | None => found
   end) = (l1 ++ d :: l2)%list →
  Forall (λ d', is_ok (product_doc_to_out d') = true) l1 →
  product_doc_to_out d = Raise e →
  list_products (Some st) limit category = Raise e.
Proof.
  intros Hst Hdocs Hl1 Hd. rewrite list_products_selected by done. rewrite Hdocs.
  by apply list_comprehension_first_failure.
Qed.

(** X19.  A created product shows up in the listing: after a successful
    create of an accepted body on a store that responds, the listing
    without category, and the listing for the body's category, return
    what they returned before followed by the new record, which carries
    the returned id and the body's validated fields. *)
Theorem create_then_list (st : Database) (b : ProductCreate.body) (p : ProductCreate.t)
    (id : string) (db' : option Database) :
  ProductCreate.validate b = Ok p →
  post_products (Some st) b = (Ok id, db') →
  let out := ProductOut.Build_t id (ProductCreate.title p) (ProductCreate.description p)
               (ProductCreate.price p) (ProductCreate.category p) (ProductCreate.in_stock p)
               (ProductCreate.image_url p) (ProductCreate.rating p) in
  ∀ category outs,
    category = None ∨ category = Some (ProductCreate.category p) →
    list_products (Some st) None category = Ok outs →
    list_products db' None category = Ok (outs ++ [out])%list.
Proof.
  intros Hp Hpost out category outs Hcat Hlist.
  unfold post_products in Hpost. rewrite Hp in Hpost.
  destruct (driver_error st) as [msg|] eqn:Hst.
  { unfold create_product, create_document, insert_one in Hpost. by rewrite Hst in Hpost. }
  rewrite create_product_stores in Hpost by done. injection Hpost as <- <-.
  rewrite list_products_selected in Hlist by done.
  rewrite list_products_selected by done. cbn [product] in *.
  rewrite filter_app, list_comprehension_app, Hlist. cbn [mbind result_bind].
  rewrite filter_cons_True.
  2:{ destruct Hcat as [->| ->]; [done|]. cbn [selected].
      destruct (decide (ProductCreate.category p = "")) as [?|_]; [by left|right].
      unfold stored_category, ProductCreate.model_dump. cbn [fields].
      rewrite lookup_insert_ne, lookup_insert_ne, lookup_insert_ne, lookup_insert_eq by done.
      done. }
  rewrite filter_nil. cbn [list_comprehension].
  pose proof (validate_Ok_inv _ _ Hp) as (_ & _ & _ & _ & _ & _ & _ & Hpok & Hrok).
  rewrite product_doc_to_out_model_dump by done. done.
Qed.

(** X20.  Status 500, "Database not configured", is the answer of every
    operation without a store, which is then left unset, and of no
    operation with one. *)
Theorem not_configured_iff (db : option Database) :
  (∀ limit category,
     list_products db limit category = Raise (HTTPException 500 "Database not configured")
     ↔ db = None)
  ∧ (∀ product_id,
       get_product db product_id = Raise (HTTPException 500 "Database not configured")
       ↔ db = None)
  ∧ (∀ payload db',
       create_product db payload = (Raise (HTTPException 500 "Database not configured"), db')
       ↔ db = None ∧ db' = None)
  ∧ (∀ db',
       seed_products db = (Raise (HTTPException 500 "Database not configured"), db')
       ↔ db = None ∧ db' = None).
Proof.
  split_and!.
  - intros limit category. split; [|by intros ->].
    destruct db as [st|]; [|done]. intros Hlist. exfalso.
    unfold list_products, get_documents, driver_call in Hlist.
    destruct (driver_error st); [done|]. cbn [mbind result_bind] in Hlist.
    apply list_comprehension_Raise_inv in Hlist as (? & d & ? & _ & _ & Hd).
    by apply product_doc_to_out_Raise_inv in Hd as [?|[?|[?|(names & ? & _)]]].
  - intros product_id. split; [|by intros ->].
    intros [[? _]|[?|[?|(st & d & _ & _ & Hd)]]]%get_product_Raise_inv; [done..|].
    by apply product_doc_to_out_Raise_inv in Hd as [?|[?|[?|(names & ? & _)]]].
  - intros payload db'. split; [|by intros [-> ->]].
    destruct db as [st|]; [|by intros [= <-]].
    unfold create_product, create_document, insert_one.
    by destruct (driver_error st).
  - intros db'. split; [|by intros [-> ->]].
    destruct db as [st|]; [|by intros [= <-]].
    unfold seed_products, count_documents, insert_many, driver_call.
    destruct (driver_error st); [done|]. by destruct (_ >? _)%Z.
Qed.

End listing_more.

(** *** Closed instances of the further properties *)

Lemma product_doc_to_out_errors_witness :
  @product_doc_to_out example_runtime doc_rating_out_of_range = Raise (ValidationError ["rating"])
  ∧ ∀ status_code detail, ValidationError ["rating"] ≠ HTTPException status_code detail.
Proof.
  split; [by vm_compute|].
  apply (@product_doc_to_out_errors example_runtime doc_rating_out_of_range). by vm_compute.
Defined.

Lemma product_doc_to_out_output_valid_witness :
  ∃ out, @product_doc_to_out example_runtime doc_complete = Ok out
         ∧ price_ok (ProductOut.price out) = true
         ∧ ObjectId_new (ProductOut.id out) = Ok (proj1_sig (example_id 7)).
Proof.
  eexists. split; [by vm_compute|].
  destruct (@product_doc_to_out_output_valid example_runtime doc_complete _ eq_refl)
    as (Hp & _ & _ & Hid).
  by split.
Defined.

Lemma product_doc_to_out_other_keys_witness :
  ("created_at" ∉ ["title"; "description"; "price"; "category"; "in_stock"; "image_url";
                   "rating"])
  ∧ @product_doc_to_out example_runtime
      (Build_document (example_id 7) (<["created_at" := PStr "2024-05-01"]> example_fields))
    = @product_doc_to_out example_runtime doc_complete.
Proof.
  assert (Hk : "created_at" ∉ ["title"; "description"; "price"; "category"; "in_stock";
                                "image_url"; "rating"]).
  { intros Hin. repeat (apply elem_of_cons in Hin as [Hin|Hin]; [done|]).
    by apply elem_of_nil in Hin. }
  split; [done|].
  by destruct (@product_doc_to_out_other_keys example_runtime (example_id 7) example_fields
                 "created_at" (PStr "2024-05-01") Hk) as [-> _].
Defined.

Lemma validated_payload_maps_back_witness :
  ProductCreate.validate example_body = Ok example_payload
  ∧ (ProductOut.rating
       <$> @product_doc_to_out example_runtime
             (Build_document (example_id 9) (ProductCreate.model_dump example_payload)))
    = Ok (Some 4.5%float).
Proof.
  split; [done|].
  by rewrite (@validated_payload_maps_back example_runtime (example_id 9) example_body
                example_payload).
Defined.

Lemma get_product_unassigned_id_witness :
  driver_error seeded_store = None
  ∧ ObjectId_new "0000000000000000000000FF" = Ok (proj1_sig (example_id 255))
  ∧ Forall (λ d, _id d ≠ example_id 255) (product seeded_store)
  ∧ @get_product example_runtime (Some seeded_store) "0000000000000000000000FF"
    = Raise (HTTPException 404 "Product not found").
Proof.
  assert (Hnone : Forall (λ d, _id d ≠ example_id 255) (product seeded_store)).
  { repeat constructor; by intros [=]. }
  split_and!; [done|done|done|].
  by apply (@get_product_unassigned_id example_runtime seeded_store _ (example_id 255)).
Defined.

Lemma get_product_first_match_witness :
  ∃ l1 d l2,
    product seeded_store = (l1 ++ d :: l2)%list
    ∧ ObjectId_new "000000000000000000000002" = Ok (proj1_sig (_id d))
    ∧ Forall (λ d', _id d' ≠ _id d) l1
    ∧ @get_product example_runtime (Some seeded_store) "000000000000000000000002"
      = @product_doc_to_out example_runtime d.
Proof.
  exists (take 2 (product seeded_store)),
         (Build_document (example_id 2)
            (sample_product "Smart NFC Tag" "Tap-to-pay accessory for seamless checkout" 14.5
               "Accessories"
               "https://images.unsplash.com/photo-1518770660439-4636190af475?q=80&w=1200&auto=format&fit=crop"
               4.4)),
         (drop 3 (product seeded_store)).
  assert (Hl1 : Forall (λ d', _id d' ≠ example_id 2) (take 2 (product seeded_store))).
  { repeat constructor; by intros [=]. }
  split_and!; [done|done|done|].
  by apply (@get_product_first_match example_runtime seeded_store _
              (take 2 (product seeded_store)) (drop 3 (product seeded_store))).
Defined.

Lemma get_product_errors_witness :
  @get_product example_runtime (Some failing_store) "000000000000000000000001"
  = Raise (HTTPException 400 "Invalid product id")
  ∧ ∀ msg, HTTPException 400 "Invalid product id" ≠ PyMongoError msg.
Proof.
  split; [done|].
  by apply (@get_product_errors example_runtime (Some failing_store)
              "000000000000000000000001").
Defined.


Lemma stored_record_fetchable_witness :
  driver_error seeded_store = None
  ∧ NoDup (_id <$> product seeded_store)
  ∧ ∃ d out,
      d ∈ product seeded_store
      ∧ @product_doc_to_out example_runtime d = Ok out
      ∧ ProductOut.title out = "Pastel Visa Card"
      ∧ @get_product example_runtime (Some seeded_store) (ProductOut.id out) = Ok out.
Proof.
  assert (Hnodup : NoDup (_id <$> product seeded_store)).
  { apply (bool_decide_unpack _). by vm_compute. }
  split_and!; [done|done|].
  set (d := Build_document (example_id 0) (default ∅ (head sample_products))).
  assert (Hin : d ∈ product seeded_store) by (by apply (list_elem_of_lookup_2 _ 0%nat)).
  exists d. eexists. split_and!; [done|by vm_compute|done|].
  apply (@stored_record_fetchable example_runtime seeded_store d); [done|done|done|by vm_compute].
Defined.

Lemma seed_products_twice_witness :
  driver_error empty_store = None
  ∧ ∃ db', snd (seed_products (Some empty_store)) = db'
           ∧ fst (seed_products db')
             = Ok (<["inserted" := PInt 0]> (<["message" := PStr "Products already exist"]> ∅))
           ∧ snd (seed_products db') = db'.
Proof.
  split; [done|]. eexists. split; [reflexivity|].
  by rewrite (seed_products_twice empty_store _ _ eq_refl
                (surjective_pairing (seed_products (Some empty_store)))).
Defined.

Lemma seed_products_appends_witness :
  ∃ reply st' new,
    seed_products (Some empty_store) = (Ok reply, Some st')
    ∧ product st' = (product empty_store ++ new)%list
    ∧ reply !! "inserted" = Some (PInt (Z.of_nat (length new)))
    ∧ length new = 4%nat.
Proof.
  destruct (seed_products_appends empty_store (<["inserted" := PInt 4]> ∅) _ eq_refl)
    as (st' & new & Hdb & Hdocs & _ & Hreply).
  injection Hdb as <-. eexists _, _, new. split_and!; [done|done|done|].
  rewrite lookup_insert_eq in Hreply. injection Hreply as Hlen. lia.
Defined.

Lemma seed_products_then_list_witness :
  count_documents empty_store = Ok 0%Z
  ∧ ∃ outs,
      @list_products example_runtime (snd (seed_products (Some empty_store))) None None = Ok outs
      ∧ ProductOut.category <$> outs = ["Cards"; "Services"; "Accessories"; "Accessories"].
Proof.
  split; [done|].
  destruct (@seed_products_then_list example_runtime empty_store _ _ eq_refl
              (surjective_pairing (seed_products (Some empty_store))))
    as (outs & Hlist & _ & Hcat & _).
  by exists outs.
Defined.

Lemma create_product_then_seed_witness :
  ∃ db',
    create_product (Some seeded_store) example_payload = (Ok "000000000000000000000004", db')
    ∧ (count_documents <$> db') = Some (Ok 5%Z)
    ∧ fst (seed_products db')
      = Ok (<["inserted" := PInt 0]> (<["message" := PStr "Products already exist"]> ∅)).
Proof.
  eexists. split; [reflexivity|].
  destruct (create_product_then_seed seeded_store example_payload _ _ eq_refl)
    as (st' & d & [= <-] & _ & _ & _ & Hcount & ->).
  split; [|done]. exact (f_equal Some (Hcount 4%Z eq_refl)).
Defined.

Lemma list_products_first_failure_witness :
  driver_error malformed_store = None
  ∧ Forall (λ d, is_ok (@product_doc_to_out example_runtime d) = true) (product seeded_store)
  ∧ @product_doc_to_out example_runtime doc_without_title = Raise (ValidationError ["title"])
  ∧ @list_products example_runtime (Some malformed_store) None None
    = Raise (ValidationError ["title"]).
Proof.
  assert (Hok : Forall (λ d, is_ok (@product_doc_to_out example_runtime d) = true)
                  (product seeded_store)).
  { repeat constructor. }
  split_and!; [done|done|by vm_compute|].
  apply (@list_products_first_failure example_runtime malformed_store None None
           (product seeded_store) [] doc_without_title); [done| |done|by vm_compute].
  cbn zeta. apply filter_all, Forall_forall. done.
Defined.

Lemma create_then_list_witness :
  ProductCreate.validate example_body = Ok example_payload
  ∧ ∃ db' outs,
      post_products (Some seeded_store) example_body = (Ok "000000000000000000000004", db')
      ∧ @list_products example_runtime (Some seeded_store) None (Some "Cards") = Ok outs
      ∧ (map ProductOut.title <$> @list_products example_runtime db' None (Some "Cards"))
        = Ok ["Pastel Visa Card"; "Gift Card"].
Proof.
  split; [done|]. eexists _, _. split_and!; [reflexivity|by vm_compute|].
  by rewrite (@create_then_list example_runtime seeded_store example_body example_payload
                _ _ eq_refl eq_refl (Some "Cards") _ (or_intror eq_refl) eq_refl).
Defined.
